(** * asdf: the Converter proxy, plugin discovery and the load path

    A shallow embedding of [asdf/extension/_converter.py] together with the
    parts of the conversion core that the repository only exercises through
    its tests ([asdf/tests/test_entry_points.py], [asdf/_tests/test_types.py]).

    Python objects are modelled by the small universe [PyVal]; object
    identity ([is], [id]) by an integer address carried by the object;
    exceptions and [warnings.warn] by the monad [Py], which pairs the list of
    warnings issued so far with either the exception raised or the value
    returned. *)

From stdpp Require Import base option list sorting gmap sets strings.

Local Open Scope string_scope.
Local Open Scope list_scope.
Local Set Warnings "-register-all,-clear-no-such-hyp".

(** ** Python values, exceptions and warnings *)

(** The values that can sit in a converter's [tags] and [types] iterables,
    and the objects handed to [select_tag]. *)
Inductive PyVal : Type :=
  | PyNone
  | PyBool (b : bool)
  | PyInt (z : Z)
  | PyStr (s : string)
  | PyType (qualname : string)
  | PyInstance (cls : string) (addr : Z).

(** [isinstance(v, str)] *)
Definition isinstance_str (v : PyVal) : bool :=
  match v with PyStr _ => true | _ => false end.

(** [isinstance(v, (str, type))] *)
Definition isinstance_str_or_type (v : PyVal) : bool :=
  match v with PyStr _ | PyType _ => true | _ => false end.

Inductive PyExc : Type :=
  | TypeError (msg : string)
  | RuntimeError (msg : string)
  | IndexError (msg : string)
  | Exception (cls : string) (msg : string).

Inductive WarningCategory : Type :=
  | AsdfWarning
  | AsdfConversionWarning.

Record Warning : Type := mkWarning {
  w_message : string;
  w_category : WarningCategory
}.

Global Instance PyExc_eq_dec : EqDecision PyExc.
Proof. solve_decision. Defined.
Global Instance WarningCategory_eq_dec : EqDecision WarningCategory.
Proof. solve_decision. Defined.
Global Instance Warning_eq_dec : EqDecision Warning.
Proof. solve_decision. Defined.

(** ** The effect monad: warnings issued, then exception or value *)

Definition Py (A : Type) : Type := (list Warning * (PyExc + A))%type.

Definition py_ret {A} (a : A) : Py A := ([], inr a).
Definition py_raise {A} (e : PyExc) : Py A := ([], inl e).
Definition py_warn (msg : string) (cat : WarningCategory) : Py unit :=
  ([mkWarning msg cat], inr tt).
Definition py_bind {A B} (m : Py A) (k : A → Py B) : Py B :=
  match m with
  | (ws, inl e) => (ws, inl e)
  | (ws, inr a) => let '(ws', r) := k a in (ws ++ ws', r)
  end.
(** [try: m  except Exception as e: handler(e)] *)
Definition py_catch {A} (m : Py A) (handler : PyExc → Py A) : Py A :=
  match m with
  | (ws, inl e) => let '(ws', r) := handler e in (ws ++ ws', r)
  | (ws, inr a) => (ws, inr a)
  end.

Global Instance Py_ret : MRet Py := @py_ret.
Global Instance Py_bind : MBind Py := λ A B k m, py_bind m k.

Definition warnings_of {A} (m : Py A) : list Warning := fst m.
Definition outcome_of {A} (m : Py A) : PyExc + A := snd m.

(** ** Converter delegates and extensions *)

(** The optional [select_tag(obj, tags, ctx)] of a converter: it returns a
    tag or [None]. *)
Definition select_tag_method (Ctx : Type) : Type :=
  PyVal → list string → Ctx → option string.

(** A converter instance as [ConverterProxy] sees it.  [attr_tags] and
    [attr_types] are [None] when the class has no such attribute;
    [attr_select_tag] is [None] when [hasattr(delegate, "select_tag")] is
    false, [Some None] when the attribute exists and is the value [None], and
    [Some (Some f)] when it is a method. *)
Record ConverterObj (Ctx : Type) : Type := mkConverterObj {
  obj_id : Z;
  obj_class_name : string;
  mro_has_Converter : bool;
  attr_tags : option (list PyVal);
  attr_types : option (list PyVal);
  has_to_yaml_tree : bool;
  has_from_yaml_tree : bool;
  attr_select_tag : option (option (select_tag_method Ctx))
}.
Arguments mkConverterObj {Ctx}.
Arguments obj_id {Ctx}.
Arguments obj_class_name {Ctx}.
Arguments mro_has_Converter {Ctx}.
Arguments attr_tags {Ctx}.
Arguments attr_types {Ctx}.
Arguments has_to_yaml_tree {Ctx}.
Arguments has_from_yaml_tree {Ctx}.
Arguments attr_select_tag {Ctx}.

(** [Converter.__subclasshook__]: a class counts as a Converter when it has
    the four members; this is what [isinstance(delegate, Converter)] runs. *)
Definition isinstance_Converter {Ctx} (d : ConverterObj Ctx) : bool :=
  bool_decide (is_Some (attr_tags d))
  && bool_decide (is_Some (attr_types d))
  && has_to_yaml_tree d
  && has_from_yaml_tree d.

(** [hasattr(delegate, "select_tag")] *)
Definition hasattr_select_tag {Ctx} (d : ConverterObj Ctx) : bool :=
  bool_decide (is_Some (attr_select_tag d)).

(** [getattr(delegate, "select_tag", None)] *)
Definition getattr_select_tag {Ctx} (d : ConverterObj Ctx)
    : option (select_tag_method Ctx) :=
  match attr_select_tag d with
  | Some (Some f) => Some f
  | _ => None
  end.

Record TagDefinition : Type := mkTagDefinition {
  tag_uri : string;
  schema_uris : list string
}.

(** Modelled from the spec: the [ExtensionProxy] class is not among the
    sources; the proxy reads its [tags] (each with a [tag_uri]), its
    [package_name] and [package_version], and the data model gives it a
    legacy flag. *)
Record ExtensionProxy : Type := mkExtensionProxy {
  ext_id : Z;
  ext_tags : list TagDefinition;
  package_name : option string;
  package_version : option string;
  legacy : bool
}.

(** ** ConverterProxy *)

Record ConverterProxy (Ctx : Type) : Type := mkConverterProxy {
  _delegate : ConverterObj Ctx;
  _extension : ExtensionProxy;
  _class_name : string;
  _tags : list string;
  _types : list PyVal
}.
Arguments mkConverterProxy {Ctx}.
Arguments _delegate {Ctx}.
Arguments _extension {Ctx}.
Arguments _class_name {Ctx}.
Arguments _tags {Ctx}.
Arguments _types {Ctx}.

(** [sorted(s)] for a set of strings: Python orders [str] by code point,
    which on UTF-8 encoded strings is the bytewise lexicographic order. *)
Definition sorted (s : gset string) : list string :=
  merge_sort String.le (elements s).

Definition msg_not_converter : string :=
  "Converter must implement the asdf.extension.Converter interface".
Definition msg_tags_str : string :=
  "Converter property 'tags' must contain str values".
Definition msg_multiple_legacy : string :=
  "Converter handles multiple tags for this extension, "
  +:+ "but does not implement a select_tag method. "
  +:+ "This previously worked because Converter subclasses inherited "
  +:+ "the now removed select_tag. This will be an error in a future "
  +:+ "version of asdf".
Definition msg_multiple : string :=
  "Converter handles multiple tags for this extension, but does not implement a select_tag method.".
Definition msg_types : string :=
  "Converter property 'types' must contain str or type values".

(** The second operand of [==]: another proxy, or any other object. *)
Inductive PyObject (Ctx : Type) : Type :=
  | ObjConverterProxy (p : ConverterProxy Ctx)
  | ObjOther (v : PyVal).
Arguments ObjConverterProxy {Ctx}.
Arguments ObjOther {Ctx}.

Section ConverterProxy.
(** [asdf.util.uri_match], Python's [hash] of a pair of addresses, and the
    serialization context are defined outside [_converter.py]. *)
Context {Ctx : Type}.
Variable uri_match : string → string → bool.
Variable hash_pair : Z → Z → Z.

(** [{t.tag_uri for t in extension.tags if uri_match(tag, t.tag_uri)}] *)
Definition matching_uris (tag : string) (extension : ExtensionProxy)
    : gset string :=
  list_to_set
    (tag_uri <$> filter (λ t, uri_match tag (tag_uri t) = true)
                        (ext_tags extension)).

(** The concrete tag URIs of the extension that match at least one of the
    declared patterns: the union the loop below builds. *)
Definition resolved_set (patterns : list PyVal) (extension : ExtensionProxy)
    : gset string :=
  ⋃ ((λ v, match v with
           | PyStr tag => matching_uris tag extension
           | _ => ∅
           end) <$> patterns).

(** The loop [for tag in delegate.tags], threading [relevant_tags]. *)
Fixpoint collect_relevant_tags (tags : list PyVal)
    (extension : ExtensionProxy) (relevant_tags : gset string)
    : Py (gset string) :=
  match tags with
  | [] => py_ret relevant_tags
  | PyStr tag :: rest =>
      collect_relevant_tags rest extension
        (relevant_tags ∪ matching_uris tag extension)
  | _ :: _ => py_raise (TypeError msg_tags_str)
  end.

(** The loop [for typ in delegate.types], threading [self._types]. *)
Fixpoint collect_types (types : list PyVal) (acc : list PyVal)
    : Py (list PyVal) :=
  match types with
  | [] => py_ret acc
  | typ :: rest =>
      if isinstance_str_or_type typ
      then collect_types rest (acc ++ [typ])
      else py_raise (TypeError msg_types)
  end.

(** [ConverterProxy.__init__(self, delegate, extension)] *)
Definition ConverterProxy_init (delegate : ConverterObj Ctx)
    (extension : ExtensionProxy) : Py (ConverterProxy Ctx) :=
  if negb (isinstance_Converter delegate)
  then py_raise (TypeError msg_not_converter)
  else
    relevant_tags ←
      collect_relevant_tags (default [] (attr_tags delegate)) extension ∅;
    (if bool_decide (1 < size relevant_tags)
        && negb (hasattr_select_tag delegate)
     then
       if mro_has_Converter delegate
       then py_warn msg_multiple_legacy AsdfWarning
       else py_raise (RuntimeError msg_multiple)
     else py_ret tt);;
    let tags := sorted relevant_tags in
    if bool_decide (length tags = 0) && negb (hasattr_select_tag delegate)
    then
      py_ret (mkConverterProxy delegate extension
                (obj_class_name delegate) tags [])
    else
      types ← collect_types (default [] (attr_types delegate)) [];
      py_ret (mkConverterProxy delegate extension
                (obj_class_name delegate) tags types).

(** The [tags] and [types] properties. *)
Definition tags (self : ConverterProxy Ctx) : list string := _tags self.
Definition types (self : ConverterProxy Ctx) : list PyVal := _types self.
Definition delegate (self : ConverterProxy Ctx) : ConverterObj Ctx :=
  _delegate self.
Definition extension (self : ConverterProxy Ctx) : ExtensionProxy :=
  _extension self.

(** [ConverterProxy.select_tag(self, obj, ctx)]; [self._tags[0]] raises
    [IndexError] on an empty list. *)
Definition select_tag (self : ConverterProxy Ctx) (obj : PyVal) (ctx : Ctx)
    : Py (option string) :=
  match getattr_select_tag (_delegate self) with
  | None =>
      match _tags self with
      | t :: _ => py_ret (Some t)
      | [] => py_raise (IndexError "list index out of range")
      end
  | Some method => py_ret (method obj (_tags self) ctx)
  end.

(** [a is b] on delegates and on extensions compares addresses. *)
Definition is_delegate (a b : ConverterObj Ctx) : bool :=
  bool_decide (obj_id a = obj_id b).
Definition is_extension (a b : ExtensionProxy) : bool :=
  bool_decide (ext_id a = ext_id b).

(** [ConverterProxy.__eq__] *)
Definition ConverterProxy_eq (self : ConverterProxy Ctx)
    (other : PyObject Ctx)
    : bool :=
  match other with
  | ObjConverterProxy other =>
      is_delegate (delegate other) (delegate self)
      && is_extension (extension other) (extension self)
  | ObjOther _ => false
  end.

(** [ConverterProxy.__hash__] *)
Definition ConverterProxy_hash (self : ConverterProxy Ctx) : Z :=
  hash_pair (obj_id (delegate self)) (ext_id (extension self)).

End ConverterProxy.

(** The [package_name], [package_version] and [class_name] properties: the
    first two are read off the proxy's extension. *)
Definition ConverterProxy_package_name {Ctx} (self : ConverterProxy Ctx)
    : option string :=
  package_name (extension self).
Definition ConverterProxy_package_version {Ctx} (self : ConverterProxy Ctx)
    : option string :=
  package_version (extension self).
Definition ConverterProxy_class_name {Ctx} (self : ConverterProxy Ctx)
    : string :=
  _class_name self.

(** ** Plugin discovery *)

(** [type(e).__name__] and [str(e)] of an exception. *)
Definition exc_class (e : PyExc) : string :=
  match e with
  | TypeError _ => "TypeError"
  | RuntimeError _ => "RuntimeError"
  | IndexError _ => "IndexError"
  | Exception cls _ => cls
  end.
Definition exc_message (e : PyExc) : string :=
  match e with
  | TypeError m | RuntimeError m | IndexError m | Exception _ m => m
  end.

(** What a plugin factory hands back in its sequence: a key-lookup mapping,
    or some other object. *)
Inductive PluginElement : Type :=
  | ElemMapping (entries : list (string * string))
  | ElemObject (v : PyVal).

(** A candidate plugin: its group, its name, the contributing package, and
    what invoking its factory does. *)
Record EntryPoint : Type := mkEntryPoint {
  ep_group : string;
  ep_name : string;
  ep_package_name : option string;
  ep_package_version : option string;
  ep_factory : PyExc + list PluginElement
}.

Record ResourceMappingProxy : Type := mkResourceMappingProxy {
  rm_delegate : list (string * string);
  rm_package_name : option string;
  rm_package_version : option string
}.

Definition msg_not_mapping : string :=
  "Resource mapping must implement the Mapping interface".

(** Modelled from the spec: the constructor of [ResourceMappingProxy] is not
    among the sources; an element that lacks the key-lookup mapping capability
    is refused, a conforming one is wrapped with its provenance. *)
Definition ResourceMappingProxy_init (element : PluginElement)
    (name version : option string) : Py ResourceMappingProxy :=
  match element with
  | ElemMapping entries => mret (mkResourceMappingProxy entries name version)
  | ElemObject _ => py_raise (TypeError msg_not_mapping)
  end.

(** The warning a failure is downgraded to: it carries the error's type and
    message. *)
Definition handle_error (e : PyExc) : Py unit :=
  py_warn (exc_class e +:+ ": " +:+ exc_message e) AsdfWarning.

Section PluginDiscovery.
Context {P : Type}.
Variable proxy_class : PluginElement → option string → option string → Py P.

(** Modelled from the spec: [asdf.entry_points] is not among the sources.
    Each element of a factory's sequence is validated and wrapped inside an
    error boundary of its own. *)
Fixpoint wrap_elements (name version : option string)
    (elements : list PluginElement) (results : list P) : Py (list P) :=
  match elements with
  | [] => mret results
  | element :: rest =>
      results ←
        py_catch (p ← proxy_class element name version; mret (results ++ [p]))
                 (λ e, handle_error e;; mret results);
      wrap_elements name version rest results
  end.

(** Modelled from the spec: [asdf.entry_points] is not among the sources.
    Each factory is invoked inside an error boundary of its own; a raising
    factory is skipped with a warning, a returned sequence is iterated. *)
Fixpoint list_entry_points (points : list EntryPoint) (results : list P)
    : Py (list P) :=
  match points with
  | [] => mret results
  | entry_point :: rest =>
      loaded ←
        py_catch (elements ← (([], ep_factory entry_point) : Py _);
                  mret (Some elements))
                 (λ e, handle_error e;; mret None);
      results ←
        match loaded with
        | None => mret results
        | Some elements =>
            wrap_elements (ep_package_name entry_point)
              (ep_package_version entry_point) elements results
        end;
      list_entry_points rest results
  end.

End PluginDiscovery.

(** Modelled from the spec: the group-scoped registry of the host
    environment, [iter_entry_points(group=...)]. *)
Definition iter_entry_points (registry : list EntryPoint) (group : string)
    : list EntryPoint :=
  filter (λ ep, ep_group ep = group) registry.

Definition resource_mappings_group : string := "asdf.resource_mappings".

(** Modelled from the spec: [entry_points.get_resource_mappings], the
    discovery of the resource-mapping group (the function the test calls). *)
Definition get_resource_mappings (registry : list EntryPoint)
    : Py (list ResourceMappingProxy) :=
  list_entry_points ResourceMappingProxy_init
    (iter_entry_points registry resource_mappings_group) [].

(** What discovery is to keep of one plugin, and the warnings it is to issue
    for it, written without the error boundaries. *)
Definition surviving (name version : option string)
    (elements : list PluginElement) : list ResourceMappingProxy :=
  List.flat_map
    (λ element,
       match element with
       | ElemMapping entries => [mkResourceMappingProxy entries name version]
       | ElemObject _ => []
       end) elements.

Definition element_warnings (elements : list PluginElement) : list Warning :=
  List.flat_map
    (λ element,
       match element with
       | ElemMapping _ => []
       | ElemObject _ =>
           [mkWarning ("TypeError: " +:+ msg_not_mapping) AsdfWarning]
       end) elements.

Definition plugin_contributions (entry_point : EntryPoint)
    : list ResourceMappingProxy :=
  match ep_factory entry_point with
  | inl _ => []
  | inr elements =>
      surviving (ep_package_name entry_point)
        (ep_package_version entry_point) elements
  end.

Definition plugin_warnings (entry_point : EntryPoint) : list Warning :=
  match ep_factory entry_point with
  | inl e => [mkWarning (exc_class e +:+ ": " +:+ exc_message e) AsdfWarning]
  | inr elements => element_warnings elements
  end.

(** The plugins of the test: one that returns two mappings, one that raises,
    one whose sequence has a non-conforming element in the middle. *)
Definition entry_point_successful : EntryPoint :=
  mkEntryPoint resource_mappings_group "successful" (Some "asdf") (Some "3.0.0")
    (inr [ElemMapping [("http://somewhere.org/schemas/foo-1.0.0", "foo")];
          ElemMapping [("http://somewhere.org/schemas/bar-1.0.0", "bar")]]).

Definition entry_point_failing : EntryPoint :=
  mkEntryPoint resource_mappings_group "failing" (Some "asdf") (Some "3.0.0")
    (inl (Exception "Exception" "NOPE")).

Definition entry_point_bad_element : EntryPoint :=
  mkEntryPoint resource_mappings_group "bad_element" (Some "asdf") (Some "3.0.0")
    (inr [ElemMapping [("http://somewhere.org/schemas/baz-1.0.0", "baz")];
          ElemObject (PyInstance "object" 7);
          ElemMapping [("http://somewhere.org/schemas/foz-1.0.0", "foz")]]).

(** ** The load path of the tree-conversion pipeline *)

Inductive Scalar : Type :=
  | SNull
  | SBool (b : bool)
  | SInt (z : Z)
  | SStr (s : string).


(** A tagged tree: any node may carry a tag URI. *)
Inductive TreeNode : Type :=
  | NScalar (tag : option string) (v : Scalar)
  | NSequence (tag : option string) (items : list TreeNode)
  | NMapping (tag : option string) (entries : list (string * TreeNode)).

(** Native values: the raw structures, and objects built by converters. *)
Inductive Native : Type :=
  | VScalar (v : Scalar)
  | VSequence (items : list Native)
  | VMapping (entries : list (string * Native))
  | VObject (type_name : string) (state : Native).

(** A registered converter as the load path uses it: its resolved tags and
    its [from_tree], which receives a node whose children are converted. *)
Record TreeConverter : Type := mkTreeConverter {
  tc_tags : list string;
  tc_from_tree : Native → string → Native
}.

(** Modelled from the spec: [converter_for_tag] of the extension registry,
    which is not among the sources: the first converter, in registration
    order, whose resolved tags contain the tag. *)
Definition converter_for_tag (registry : list TreeConverter) (tag : string)
    : option TreeConverter :=
  List.find (λ c, bool_decide (tag ∈ tc_tags c)) registry.

(** The state of one conversion pass: the tags already warned about, and
    the warnings issued. *)
Record LoadState : Type := mkLoadState {
  warned : gset string;
  issued : list Warning
}.

Definition initial_state : LoadState := mkLoadState ∅ [].

Definition msg_unrecognized (tag : string) : string :=
  tag +:+ " is not recognized, converting to raw Python data structure".

Definition unrecognized_warning (tag : string) : Warning :=
  mkWarning (msg_unrecognized tag) AsdfConversionWarning.

Section LoadPath.
Variable registry : list TreeConverter.
Variable suppress_unresolved_tag_warnings : bool.

(** Modelled from the spec: the handling of an unmatched tag, which is not
    among the sources: one warning per distinct tag and pass, none when the
    caller suppresses them. *)
Definition record_unresolved (tag : string) (st : LoadState) : LoadState :=
  if suppress_unresolved_tag_warnings then st
  else if bool_decide (tag ∈ warned st) then st
  else mkLoadState ({[tag]} ∪ warned st) (issued st ++ [unrecognized_warning tag]).

(** Modelled from the spec: what the load path does at a node once its
    children are converted (the pipeline is not among the sources). *)
Definition convert_node (tag : option string) (raw : Native) (st : LoadState)
    : Native * LoadState :=
  match tag with
  | None => (raw, st)
  | Some t =>
      match converter_for_tag registry t with
      | Some c => (tc_from_tree c raw t, st)
      | None => (raw, record_unresolved t st)
      end
  end.

(** Modelled from the spec: the bottom-up walk of the load path (the
    pipeline is not among the sources); children before their parent. *)
Fixpoint walk (node : TreeNode) (st : LoadState) : Native * LoadState :=
  match node with
  | NScalar tag v => convert_node tag (VScalar v) st
  | NSequence tag items =>
      let '(items', st') :=
        (fix walk_items (l : list TreeNode) (s : LoadState) :=
           match l with
           | [] => ([], s)
           | x :: r =>
               let '(x', s1) := walk x s in
               let '(r', s2) := walk_items r s1 in
               (x' :: r', s2)
           end) items st in
      convert_node tag (VSequence items') st'
  | NMapping tag entries =>
      let '(entries', st') :=
        (fix walk_entries (l : list (string * TreeNode)) (s : LoadState) :=
           match l with
           | [] => ([], s)
           | (k, x) :: r =>
               let '(x', s1) := walk x s in
               let '(r', s2) := walk_entries r s1 in
               ((k, x') :: r', s2)
           end) entries st in
      convert_node tag (VMapping entries') st'
  end.

(** Modelled from the spec: the caller-facing [from_tree] entry point. *)
Definition from_tree (tree : TreeNode) : Py Native :=
  let '(obj, st) := walk tree initial_state in (issued st, inr obj).

(** The value the load path is to return, written without the warning
    state: converters applied where one is registered, the raw structure
    with the tag discarded elsewhere. *)
Definition apply_converter (tag : option string) (raw : Native) : Native :=
  match tag with
  | None => raw
  | Some t =>
      match converter_for_tag registry t with
      | Some c => tc_from_tree c raw t
      | None => raw
      end
  end.

Fixpoint structural_value (node : TreeNode) : Native :=
  match node with
  | NScalar tag v => apply_converter tag (VScalar v)
  | NSequence tag items =>
      apply_converter tag (VSequence (List.map structural_value items))
  | NMapping tag entries =>
      apply_converter tag
        (VMapping (List.map (λ kv, (fst kv, structural_value (snd kv))) entries))
  end.

(** The tags of a tree in the order the walk meets them. *)
Fixpoint node_tags (node : TreeNode) : list string :=
  match node with
  | NScalar tag _ => option_list tag
  | NSequence tag items => List.flat_map node_tags items ++ option_list tag
  | NMapping tag entries =>
      List.flat_map (λ kv, node_tags (snd kv)) entries ++ option_list tag
  end.

(** The tags of a tree for which no converter is registered. *)
Definition unresolved_tags (node : TreeNode) : list string :=
  filter (λ t, converter_for_tag registry t = None) (node_tags node).

(** The loops of [walk] over the items of a sequence and the entries of a
    mapping, by name. *)
Fixpoint walk_items (l : list TreeNode) (s : LoadState)
    : list Native * LoadState :=
  match l with
  | [] => ([], s)
  | x :: r =>
      let '(x', s1) := walk x s in
      let '(r', s2) := walk_items r s1 in
      (x' :: r', s2)
  end.

Fixpoint walk_entries (l : list (string * TreeNode)) (s : LoadState)
    : list (string * Native) * LoadState :=
  match l with
  | [] => ([], s)
  | (k, x) :: r =>
      let '(x', s1) := walk x s in
      let '(r', s2) := walk_entries r s1 in
      ((k, x') :: r', s2)
  end.

(** The state after meeting a run of unmatched tags. *)
Definition record_all (unmatched : list string) (st : LoadState) : LoadState :=
  fold_left (λ s t, record_unresolved t s) unmatched st.

End LoadPath.

(** The tags of a list that are not in [seen] and not met earlier in the
    list: the tags a pass warns about. *)
Fixpoint first_occurrences (seen : gset string) (l : list string)
    : list string :=
  match l with
  | [] => []
  | t :: r =>
      if bool_decide (t ∈ seen) then first_occurrences seen r
      else t :: first_occurrences ({[t]} ∪ seen) r
  end.

(** The raw structure of a tree, every tag discarded. *)
Fixpoint strip_tags (node : TreeNode) : Native :=
  match node with
  | NScalar _ v => VScalar v
  | NSequence _ items => VSequence (List.map strip_tags items)
  | NMapping _ entries =>
      VMapping (List.map (λ kv, (fst kv, strip_tags (snd kv))) entries)
  end.

(** ** Concrete converters and extensions *)

(** The matcher restricted to patterns without a wildcard: such a pattern
    matches the URI equal to it. *)
Definition uri_match_literal (pattern uri : string) : bool :=
  String.eqb pattern uri.

Definition tag_a10 : string := "asdf://example.com/tags/a-1.0.0".
Definition tag_a11 : string := "asdf://example.com/tags/a-1.1.0".
Definition tag_b10 : string := "asdf://example.com/tags/b-1.0.0".

(** An extension that declares two tags, the later version first. *)
Definition two_tag_extension (is_legacy : bool) : ExtensionProxy :=
  mkExtensionProxy 100
    [mkTagDefinition tag_a11 []; mkTagDefinition tag_a10 []]
    (Some "asdf") (Some "3.0.0") is_legacy.

(** A converter with the four required members. *)
Definition example_converter (addr : Z) (inherits : bool)
    (declared_tags declared_types : list PyVal)
    (sel : option (option (select_tag_method unit))) : ConverterObj unit :=
  mkConverterObj addr "example.FooConverter" inherits
    (Some declared_tags) (Some declared_types) true true sel.

(** A delegate [select_tag] that picks the last candidate. *)
Definition last_candidate : select_tag_method unit :=
  λ _ candidates _, last candidates.

(** A delegate [select_tag] that picks the first candidate. *)
Definition first_candidate : select_tag_method unit :=
  λ _ candidates _, head candidates.

(** A converter declaring both tags of [two_tag_extension]. *)
Definition two_tag_converter (inherits : bool)
    (sel : option (option (select_tag_method unit))) : ConverterObj unit :=
  example_converter 1 inherits [PyStr tag_a11; PyStr tag_a10]
    [PyType "example.Foo"] sel.

(** A converter whose only pattern matches no tag of the extension. *)
Definition unmatched_converter (declared_types : list PyVal)
    : ConverterObj unit :=
  example_converter 2 false [PyStr tag_b10] declared_types None.

(** The tree of [test_undefined_tag] and a registry that knows the two core
    tags in it. *)
Definition tag_undefined : string :=
  "tag:nowhere.org:custom/undefined_tag-1.0.0".
Definition tag_also_undefined : string :=
  "tag:nowhere.org:custom/also_undefined-1.3.0".
Definition tag_ndarray : string := "tag:stsci.edu:asdf/core/ndarray-1.0.0".
Definition tag_complex : string := "tag:stsci.edu:asdf/core/complex-1.0.0".

Definition int_row (zs : list Z) : TreeNode :=
  NSequence None (List.map (λ z, NScalar None (SInt z)) zs).

Definition undefined_tag_tree : TreeNode :=
  NMapping None
    [("undefined_data",
      NSequence (Some tag_undefined)
        [NScalar None (SInt 5);
         NMapping None [("message", NScalar None (SStr "there is no tag"))];
         NSequence (Some tag_ndarray) [int_row [1; 2; 3]%Z; int_row [4; 5; 6]%Z];
         NSequence (Some tag_also_undefined)
           [NSequence (Some tag_ndarray)
              [int_row [7]%Z; int_row [8]%Z; int_row [9]%Z; int_row [10]%Z];
            NScalar (Some tag_complex) (SStr "3.14j")]])].

Definition core_registry : list TreeConverter :=
  [mkTreeConverter [tag_ndarray] (λ node _, VObject "numpy.ndarray" node);
   mkTreeConverter [tag_complex] (λ node _, VObject "complex" node)].

Definition raw_row (zs : list Z) : Native :=
  VSequence (List.map (λ z, VScalar (SInt z)) zs).


(** * Properties *)

(** ** The effect monad *)

Lemma py_bind_ret_l {A B} (a : A) (k : A → Py B) : py_bind (py_ret a) k = k a.
Proof. unfold py_bind, py_ret. by destruct (k a). Qed.

Lemma py_bind_raise {A B} (e : PyExc) (k : A → Py B) :
  py_bind (py_raise e) k = py_raise e.
Proof. done. Qed.

(** ** Sorting a set of tags *)

Lemma sorted_Sorted (X : gset string) : Sorted String.le (sorted X).
Proof. apply (Sorted_merge_sort String.le). Qed.

Lemma sorted_Permutation (X : gset string) : sorted X ≡ₚ elements X.
Proof. apply (merge_sort_Permutation String.le). Qed.

Lemma sorted_elem_of (X : gset string) (t : string) : t ∈ sorted X ↔ t ∈ X.
Proof. by rewrite sorted_Permutation, elem_of_elements. Qed.

Lemma sorted_NoDup (X : gset string) : NoDup (sorted X).
Proof. rewrite sorted_Permutation. apply NoDup_elements. Qed.

Lemma sorted_length (X : gset string) : length (sorted X) = size X.
Proof. by rewrite sorted_Permutation. Qed.

Lemma sorted_StronglySorted (X : gset string) :
  StronglySorted String.le (sorted X).
Proof. apply Sorted_StronglySorted; [apply _ | apply sorted_Sorted]. Qed.

(** A sorted list is determined by its elements. *)
Lemma sorted_unique (X : gset string) (l : list string) :
  Sorted String.le l → NoDup l → (∀ t, t ∈ l ↔ t ∈ X) → l = sorted X.
Proof.
  intros Hs Hn Hm. apply (Sorted_unique String.le); [done | apply sorted_Sorted |].
  apply NoDup_Permutation; [done | apply sorted_NoDup |].
  intros t. by rewrite Hm, sorted_elem_of.
Qed.

(** ** ConverterProxy construction *)

Section ConverterProxy_facts.
Context {Ctx : Type}.
Variable uri_match : string → string → bool.

Implicit Types (d : ConverterObj Ctx) (e : ExtensionProxy).
Implicit Types (ps ts : list PyVal) (X : gset string).

Lemma elem_of_matching_uris (pat t : string) e :
  t ∈ matching_uris uri_match pat e ↔
  ∃ td, td ∈ ext_tags e ∧ tag_uri td = t ∧ uri_match pat t = true.
Proof.
  unfold matching_uris. rewrite elem_of_list_to_set, list_elem_of_fmap.
  split.
  - intros (td & -> & [Hm Hin]%list_elem_of_filter). eauto.
  - intros (td & Hin & <- & Hm). exists td. split; [done|].
    by apply list_elem_of_filter.
Qed.

Lemma elem_of_resolved_set ps e (t : string) :
  t ∈ resolved_set uri_match ps e ↔
  ∃ pat td, PyStr pat ∈ ps ∧ td ∈ ext_tags e ∧ tag_uri td = t
            ∧ uri_match pat t = true.
Proof.
  unfold resolved_set. rewrite elem_of_union_list. split.
  - intros (X & [v [-> Hv]]%list_elem_of_fmap & Ht).
    destruct v; try (by apply not_elem_of_empty in Ht).
    apply elem_of_matching_uris in Ht as (td & ? & ? & ?). eauto 6.
  - intros (pat & td & Hp & Htd & Hu & Hm).
    exists (matching_uris uri_match pat e). split.
    + apply list_elem_of_fmap. by exists (PyStr pat).
    + apply elem_of_matching_uris. eauto.
Qed.

Lemma resolved_set_cons_str (pat : string) ps e :
  resolved_set uri_match (PyStr pat :: ps) e
  = matching_uris uri_match pat e ∪ resolved_set uri_match ps e.
Proof. done. Qed.

(** With only [str] patterns the loop ends normally, silently, with the
    union of the matches. *)
Lemma collect_relevant_tags_str ps e X :
  Forall (λ v, isinstance_str v = true) ps →
  collect_relevant_tags uri_match ps e X
  = py_ret (X ∪ resolved_set uri_match ps e).
Proof.
  intros Hall. revert X.
  induction Hall as [|v ps Hv _ IH]; intros X; simpl.
  - f_equal. unfold resolved_set. simpl. by rewrite (right_id_L ∅ (∪)).
  - destruct v; try discriminate Hv.
    rewrite IH, resolved_set_cons_str. f_equal. by rewrite (assoc_L (∪)).
Qed.

(** A pattern that is not a [str] stops the loop with a [TypeError]. *)
Lemma collect_relevant_tags_bad ps e X :
  Exists (λ v, isinstance_str v = false) ps →
  collect_relevant_tags uri_match ps e X = py_raise (TypeError msg_tags_str).
Proof.
  intros Hex. revert X.
  induction ps as [|v ps IH]; intros X; [by apply Exists_nil in Hex|].
  apply Exists_cons in Hex as [Hv|Hex]; destruct v; simpl; try done.
  by apply IH.
Qed.

Lemma collect_types_ok ts (acc : list PyVal) :
  Forall (λ v, isinstance_str_or_type v = true) ts →
  collect_types ts acc = py_ret (acc ++ ts).
Proof.
  intros Hall. revert acc.
  induction Hall as [|v ts Hv _ IH]; intros acc; simpl.
  - by rewrite app_nil_r.
  - rewrite Hv, IH. by rewrite <- app_assoc.
Qed.

Lemma collect_types_bad ts (acc : list PyVal) :
  Exists (λ v, isinstance_str_or_type v = false) ts →
  collect_types ts acc = py_raise (TypeError msg_types).
Proof.
  intros Hex. revert acc.
  induction ts as [|v ts IH]; intros acc; [by apply Exists_nil in Hex|].
  simpl. destruct (isinstance_str_or_type v) eqn:Hv; [|done].
  apply IH. apply Exists_cons in Hex as [Hv'|Hex]; [congruence | done].
Qed.

(** The loop over the declared types issues no warning. *)
Lemma collect_types_silent ts (acc : list PyVal) :
  ∃ r, collect_types ts acc = ([], r).
Proof.
  revert acc. induction ts as [|v ts IH]; intros acc; simpl; [by eexists|].
  destruct (isinstance_str_or_type v); [apply IH | by eexists].
Qed.

(** The steps of [__init__] after the [tags] loop, given its result. *)
Definition init_after_tags d e (relevant_tags : gset string)
    : Py (ConverterProxy Ctx) :=
  (if bool_decide (1 < size relevant_tags) && negb (hasattr_select_tag d)
   then
     if mro_has_Converter d
     then py_warn msg_multiple_legacy AsdfWarning
     else py_raise (RuntimeError msg_multiple)
   else py_ret tt);;
  if bool_decide (length (sorted relevant_tags) = 0)
     && negb (hasattr_select_tag d)
  then py_ret (mkConverterProxy d e (obj_class_name d)
                 (sorted relevant_tags) [])
  else
    types ← collect_types (default [] (attr_types d)) [];
    py_ret (mkConverterProxy d e (obj_class_name d)
              (sorted relevant_tags) types).

Lemma ConverterProxy_init_str d e ps :
  isinstance_Converter d = true →
  attr_tags d = Some ps →
  Forall (λ v, isinstance_str v = true) ps →
  ConverterProxy_init uri_match d e
  = init_after_tags d e (resolved_set uri_match ps e).
Proof.
  intros Hi Ht Hall. unfold ConverterProxy_init. rewrite Hi, Ht. simpl.
  rewrite collect_relevant_tags_str by done.
  change (?m ≫= ?k) with (py_bind m k). rewrite py_bind_ret_l.
  unfold init_after_tags. by rewrite (left_id_L ∅ (∪)).
Qed.

(** A construction that returns a proxy went through the [tags] loop with
    [str] patterns only. *)
Lemma ConverterProxy_init_inr d e ws (p : ConverterProxy Ctx) :
  ConverterProxy_init uri_match d e = (ws, inr p) →
  isinstance_Converter d = true
  ∧ ∃ ps, attr_tags d = Some ps ∧ Forall (λ v, isinstance_str v = true) ps.
Proof.
  unfold ConverterProxy_init.
  destruct (isinstance_Converter d) eqn:Hi; simpl; [|done].
  intros H. split; [done|].
  unfold isinstance_Converter in Hi.
  destruct (attr_tags d) as [ps|] eqn:Ht; [|done].
  exists ps. split; [done|].
  apply Forall_forall. intros v Hv.
  destruct (isinstance_str v) eqn:Hs; [done|]. exfalso.
  rewrite (collect_relevant_tags_bad ps e ∅) in H.
  - discriminate H.
  - apply Exists_exists. eauto.
Qed.

End ConverterProxy_facts.

Section ConverterProxy_claims.
Context {Ctx : Type}.
Variable uri_match : string → string → bool.
Variable hash_pair : Z → Z → Z.

Implicit Types (d : ConverterObj Ctx) (e : ExtensionProxy).
Implicit Types (p q : ConverterProxy Ctx) (ps ts : list PyVal).

Lemma init_after_tags_inr d e (R : gset string) ws p :
  init_after_tags d e R = (ws, inr p) →
  _tags p = sorted R ∧ _delegate p = d ∧ _extension p = e.
Proof.
  unfold init_after_tags. change (?m ≫= ?k) with (py_bind m k).
  destruct (bool_decide (1 < size R) && negb (hasattr_select_tag d));
    [destruct (mro_has_Converter d)|]; simpl; try done.
  all: destruct (bool_decide (length (sorted R) = 0)
                 && negb (hasattr_select_tag d)); simpl.
  all: try (intros [= _ <-]; done).
  all: destruct (collect_types _ _) as [ws' [err|tys]]; simpl;
    intros [= _ <-]; done.
Qed.

(** C6: when construction accepts a delegate and an extension, the proxy's
    tag list is the sorted, duplicate-free list of the extension's tag URIs
    that match at least one declared pattern; the [tags] property returns it,
    and no other sorted duplicate-free list has these elements. *)
Theorem C6_tags_sorted_union_of_matches d e ws p :
  ConverterProxy_init uri_match d e = (ws, inr p) →
  tags p = _tags p
  ∧ Sorted String.le (tags p)
  ∧ NoDup (tags p)
  ∧ (∀ t, t ∈ tags p ↔
       ∃ pat td, PyStr pat ∈ default [] (attr_tags d) ∧ td ∈ ext_tags e
                 ∧ tag_uri td = t ∧ uri_match pat t = true)
  ∧ (∀ l, Sorted String.le l → NoDup l →
       (∀ t, t ∈ l ↔
          ∃ pat td, PyStr pat ∈ default [] (attr_tags d) ∧ td ∈ ext_tags e
                    ∧ tag_uri td = t ∧ uri_match pat t = true) →
       l = tags p).
Proof.
  intros Hinit.
  destruct (ConverterProxy_init_inr uri_match d e ws p Hinit)
    as (Hi & ps & Hps & Hall).
  rewrite (ConverterProxy_init_str uri_match d e ps) in Hinit by done.
  apply init_after_tags_inr in Hinit as (Ht & _ & _).
  unfold tags. rewrite Ht, Hps. simpl.
  split; [done|]. split; [apply sorted_Sorted|].
  split; [apply sorted_NoDup|]. split.
  - intros t. by rewrite sorted_elem_of, elem_of_resolved_set.
  - intros l Hs Hn Hm. apply sorted_unique; [done..|].
    intros t. by rewrite Hm, elem_of_resolved_set.
Qed.

(** C8: a delegate whose [tags] holds a value that is not a [str] is
    refused with a [TypeError], without a warning, whatever the extension and
    the matcher are. *)
Theorem C8_non_str_tag_pattern_rejected d e ps :
  attr_tags d = Some ps →
  Exists (λ v, isinstance_str v = false) ps →
  ConverterProxy_init uri_match d e
  = py_raise (TypeError (if isinstance_Converter d
                         then msg_tags_str else msg_not_converter)).
Proof.
  intros Hps Hex. unfold ConverterProxy_init.
  destruct (isinstance_Converter d); simpl; [|done].
  rewrite Hps. simpl. by rewrite collect_relevant_tags_bad.
Qed.

(** C7: when the delegate has no [select_tag] (the attribute is missing, or
    is [None]) and exactly one tag resolved, the proxy selects that tag; when
    the delegate has a [select_tag] method, the proxy returns what that
    method chooses from the resolved tag list. *)
Theorem C7_select_tag_default_and_delegate p (obj : PyVal) (ctx : Ctx) :
  (∀ t, attr_select_tag (delegate p) = None
        ∨ attr_select_tag (delegate p) = Some None →
        tags p = [t] →
        select_tag p obj ctx = py_ret (Some t))
  ∧ (∀ method, attr_select_tag (delegate p) = Some (Some method) →
        select_tag p obj ctx = py_ret (method obj (tags p) ctx)).
Proof.
  unfold select_tag, getattr_select_tag, delegate, tags. split.
  - intros t [-> | ->] ->; done.
  - intros method ->. done.
Qed.

(** C9: two proxies are equal exactly when they wrap the same delegate
    instance and the same extension instance; equality is reflexive and
    symmetric, and equal proxies have equal hashes. *)
Theorem C9_eq_is_identity_of_delegate_and_extension p q :
  (ConverterProxy_eq p (ObjConverterProxy q) = true ↔
     obj_id (delegate p) = obj_id (delegate q)
     ∧ ext_id (extension p) = ext_id (extension q))
  ∧ ConverterProxy_eq p (ObjConverterProxy p) = true
  ∧ ConverterProxy_eq p (ObjConverterProxy q)
    = ConverterProxy_eq q (ObjConverterProxy p)
  ∧ (ConverterProxy_eq p (ObjConverterProxy q) = true →
     ConverterProxy_hash hash_pair p = ConverterProxy_hash hash_pair q).
Proof.
  unfold ConverterProxy_eq, ConverterProxy_hash, is_delegate, is_extension.
  rewrite andb_true_iff, !bool_decide_eq_true.
  split; [split; intros [H1 H2]; by split|].
  split; [by rewrite andb_true_iff, !bool_decide_eq_true|].
  split.
  - f_equal; apply bool_decide_ext; split; congruence.
  - intros [H1 H2]. by rewrite H1, H2.
Qed.

(** C10: on a constructed proxy whose delegate has no [select_tag], the
    default selection returns the least resolved tag when some tag resolved,
    and fails with an [IndexError] when none did. *)
Theorem C10_default_select_tag_needs_a_resolved_tag d e ws p
    (obj : PyVal) (ctx : Ctx) :
  ConverterProxy_init uri_match d e = (ws, inr p) →
  getattr_select_tag d = None →
  (tags p = [] →
     select_tag p obj ctx = py_raise (IndexError "list index out of range"))
  ∧ (tags p ≠ [] →
     ∃ t, select_tag p obj ctx = py_ret (Some t)
          ∧ head (tags p) = Some t
          ∧ ∀ t', t' ∈ tags p → String.le t t').
Proof.
  intros Hinit Hget.
  destruct (ConverterProxy_init_inr uri_match d e ws p Hinit)
    as (Hi & ps & Hps & Hall).
  rewrite (ConverterProxy_init_str uri_match d e ps) in Hinit by done.
  apply init_after_tags_inr in Hinit as (Ht & Hd & _).
  unfold select_tag, tags. rewrite Hd, Hget, Ht. split.
  - by intros ->.
  - pose proof (sorted_StronglySorted (resolved_set uri_match ps e)) as Hs.
    destruct (sorted (resolved_set uri_match ps e)) as [|t l]; [done|].
    intros _. exists t. split; [done|]. split; [done|].
    apply StronglySorted_cons in Hs as [Hle _].
    intros t' [->|Hin]%elem_of_cons; [done|].
    by eapply Forall_forall in Hle.
Qed.

End ConverterProxy_claims.

(** ** Corrections to the construction protocol *)

Section ConverterProxy_protocol.
Context {Ctx : Type}.
Variable uri_match : string → string → bool.

Implicit Types (d : ConverterObj Ctx) (e : ExtensionProxy).
Implicit Types (p : ConverterProxy Ctx) (ps ts : list PyVal).

Lemma hasattr_select_tag_false d :
  attr_select_tag d = None → hasattr_select_tag d = false.
Proof. unfold hasattr_select_tag. by intros ->. Qed.

Lemma getattr_select_tag_None d :
  attr_select_tag d = None → getattr_select_tag d = None.
Proof. unfold getattr_select_tag. by intros ->. Qed.

(** C1 (amended): more than one resolved tag and no [select_tag]: a delegate
    whose class does not inherit from [Converter] is refused with a
    [RuntimeError]; for one that inherits, exactly one warning is issued, and
    when its declared types are valid the proxy is built and selects the
    first tag of the sorted list.  The extension's legacy flag plays no part. *)
Theorem C1_multiple_tags_without_select_tag d e ps :
  isinstance_Converter d = true →
  attr_tags d = Some ps →
  Forall (λ v, isinstance_str v = true) ps →
  1 < size (resolved_set uri_match ps e) →
  attr_select_tag d = None →
  (mro_has_Converter d = false →
     ConverterProxy_init uri_match d e = py_raise (RuntimeError msg_multiple))
  ∧ (mro_has_Converter d = true →
     warnings_of (ConverterProxy_init uri_match d e)
     = [mkWarning msg_multiple_legacy AsdfWarning]
     ∧ (Forall (λ v, isinstance_str_or_type v = true)
          (default [] (attr_types d)) →
        ∃ p t rest,
          ConverterProxy_init uri_match d e
          = ([mkWarning msg_multiple_legacy AsdfWarning], inr p)
          ∧ tags p = sorted (resolved_set uri_match ps e)
          ∧ tags p = t :: rest
          ∧ ∀ obj ctx, select_tag p obj ctx = py_ret (Some t))).
Proof.
  intros Hi Hps Hall Hsize Hsel.
  rewrite (ConverterProxy_init_str uri_match d e ps) by done.
  unfold init_after_tags. change (?m ≫= ?k) with (py_bind m k).
  rewrite (hasattr_select_tag_false d Hsel), !andb_true_r.
  rewrite (bool_decide_eq_true_2 _ Hsize).
  split; [by intros -> | intros ->].
  assert (bool_decide (length (sorted (resolved_set uri_match ps e)) = 0)
          = false) as ->.
  { apply bool_decide_eq_false. rewrite sorted_length. lia. }
  simpl. split.
  - by destruct (collect_types_silent (default [] (attr_types d)) [])
      as [[err|tys] ->].
  - intros Hty. rewrite collect_types_ok by done. simpl.
    destruct (sorted (resolved_set uri_match ps e)) as [|t rest] eqn:Hsorted.
    { apply (f_equal length) in Hsorted. rewrite sorted_length in Hsorted.
      simpl in Hsorted. lia. }
    eexists _, t, rest. split; [done|]. unfold tags, select_tag. simpl.
    rewrite (getattr_select_tag_None d Hsel). done.
Qed.

(** C4 (amended): no resolved tag and no [select_tag]: construction
    succeeds silently and returns early; the proxy has no tags and no types,
    the delegate's declared types are not read. *)
Theorem C4_no_tags_no_select_tag_no_types d e ps :
  isinstance_Converter d = true →
  attr_tags d = Some ps →
  Forall (λ v, isinstance_str v = true) ps →
  resolved_set uri_match ps e = ∅ →
  attr_select_tag d = None →
  ∃ p, ConverterProxy_init uri_match d e = py_ret p
       ∧ tags p = [] ∧ types p = []
       ∧ delegate p = d ∧ extension p = e.
Proof.
  intros Hi Hps Hall Hempty Hsel.
  rewrite (ConverterProxy_init_str uri_match d e ps) by done.
  unfold init_after_tags. change (?m ≫= ?k) with (py_bind m k).
  rewrite (hasattr_select_tag_false d Hsel), Hempty. simpl.
  eexists. split; [reflexivity|]. done.
Qed.

(** C5 (amended): when construction reaches the loop over the declared
    types (a tag resolved or the delegate has [select_tag], and the check of
    multiple tags did not raise), every [str] and every [type] is accepted,
    the empty string too, and the proxy's types are the declared ones in
    order; any other element raises a [TypeError].  When no tag resolved and
    the delegate has no [select_tag], the declared types are not validated:
    whatever they are, construction succeeds and the proxy has no types. *)
Theorem C5_declared_types_str_or_type d e ps ts :
  isinstance_Converter d = true →
  attr_tags d = Some ps →
  Forall (λ v, isinstance_str v = true) ps →
  attr_types d = Some ts →
  (resolved_set uri_match ps e ≠ ∅ ∨ is_Some (attr_select_tag d) →
   (size (resolved_set uri_match ps e) ≤ 1)%nat
     ∨ is_Some (attr_select_tag d) ∨ mro_has_Converter d = true →
   (Forall (λ v, isinstance_str_or_type v = true) ts →
      ∃ p, outcome_of (ConverterProxy_init uri_match d e) = inr p
           ∧ types p = ts)
   ∧ (Exists (λ v, isinstance_str_or_type v = false) ts →
      outcome_of (ConverterProxy_init uri_match d e)
      = inl (TypeError msg_types)))
  ∧ (resolved_set uri_match ps e = ∅ → attr_select_tag d = None →
     ∃ p, ConverterProxy_init uri_match d e = py_ret p
          ∧ tags p = [] ∧ types p = []).
Proof.
  intros Hi Hps Hall Hts.
  rewrite (ConverterProxy_init_str uri_match d e ps) by done.
  unfold init_after_tags. change (?m ≫= ?k) with (py_bind m k).
  rewrite Hts. simpl.
  assert (is_Some (attr_select_tag d) → hasattr_select_tag d = true) as Hattr.
  { intros Hs. by apply bool_decide_eq_true_2. }
  split.
  - intros Hreach Hpass.
    assert (bool_decide (length (sorted (resolved_set uri_match ps e)) = 0)
            && negb (hasattr_select_tag d) = false) as ->.
    { destruct Hreach as [Hne | Hs];
        [|by rewrite (Hattr Hs), andb_false_r].
      rewrite bool_decide_eq_false_2; [done|].
      rewrite sorted_length. intros Hz.
      by apply size_empty_inv, leibniz_equiv in Hz. }
    assert (∃ ws0,
      (if bool_decide (1 < size (resolved_set uri_match ps e))
          && negb (hasattr_select_tag d)
       then if mro_has_Converter d
            then py_warn msg_multiple_legacy AsdfWarning
            else py_raise (RuntimeError msg_multiple)
       else py_ret tt) = (ws0, inr tt)) as [ws0 ->].
    { destruct (bool_decide (1 < size (resolved_set uri_match ps e))) eqn:Hb;
        simpl; [|by eexists].
      apply bool_decide_eq_true in Hb.
      destruct Hpass as [Hle | [Hs | ->]];
        [lia | rewrite (Hattr Hs); by eexists |].
      destruct (hasattr_select_tag d); by eexists. }
    split; intros Hty.
    + rewrite collect_types_ok by done. simpl. by eexists.
    + by rewrite collect_types_bad.
  - intros Hempty Hsel.
    rewrite (hasattr_select_tag_false d Hsel), Hempty. simpl.
    eexists. split; [reflexivity|]. done.
Qed.

End ConverterProxy_protocol.

(** ** The construction protocol on concrete converters *)

Lemma C1_counterexample :
  (legacy (two_tag_extension true) = true
   ∧ attr_select_tag (two_tag_converter false None) = None
   ∧ sorted (resolved_set uri_match_literal
               [PyStr tag_a11; PyStr tag_a10] (two_tag_extension true))
     = [tag_a10; tag_a11]
   ∧ ConverterProxy_init uri_match_literal
       (two_tag_converter false None) (two_tag_extension true)
     = ([], inl (RuntimeError msg_multiple)))
  ∧ (legacy (two_tag_extension false) = false
     ∧ attr_select_tag (two_tag_converter true None) = None
     ∧ ConverterProxy_init uri_match_literal
         (two_tag_converter true None) (two_tag_extension false)
       = ([mkWarning msg_multiple_legacy AsdfWarning],
          inr (mkConverterProxy (two_tag_converter true None)
                 (two_tag_extension false) "example.FooConverter"
                 [tag_a10; tag_a11] [PyType "example.Foo"]))).
Proof. vm_compute. repeat split. Qed.

Lemma C1_witness :
  ConverterProxy_init uri_match_literal
    (two_tag_converter false None) (two_tag_extension true)
  = py_raise (RuntimeError msg_multiple)
  ∧ warnings_of (ConverterProxy_init uri_match_literal
                   (two_tag_converter true None) (two_tag_extension true))
    = [mkWarning msg_multiple_legacy AsdfWarning].
Proof.
  split.
  - apply (C1_multiple_tags_without_select_tag uri_match_literal
             (two_tag_converter false None) (two_tag_extension true)
             [PyStr tag_a11; PyStr tag_a10]);
      [reflexivity | reflexivity | repeat constructor
      | vm_compute; lia | reflexivity | reflexivity].
  - apply (C1_multiple_tags_without_select_tag uri_match_literal
             (two_tag_converter true None) (two_tag_extension true)
             [PyStr tag_a11; PyStr tag_a10]);
      [reflexivity | reflexivity | repeat constructor
      | vm_compute; lia | reflexivity | reflexivity].
Defined.

Lemma C4_counterexample :
  attr_types (unmatched_converter [PyType "example.Foo"])
  = Some [PyType "example.Foo"]
  ∧ ConverterProxy_init uri_match_literal
      (unmatched_converter [PyType "example.Foo"]) (two_tag_extension false)
    = ([], inr (mkConverterProxy (unmatched_converter [PyType "example.Foo"])
                  (two_tag_extension false) "example.FooConverter" [] [])).
Proof. vm_compute. split; reflexivity. Qed.

Lemma C4_witness :
  ∃ p, ConverterProxy_init uri_match_literal
         (unmatched_converter [PyType "example.Foo"]) (two_tag_extension false)
       = py_ret p
       ∧ tags p = [] ∧ types p = []
       ∧ delegate p = unmatched_converter [PyType "example.Foo"]
       ∧ extension p = two_tag_extension false.
Proof.
  apply (C4_no_tags_no_select_tag_no_types uri_match_literal
           (unmatched_converter [PyType "example.Foo"])
           (two_tag_extension false) [PyStr tag_b10]);
    [reflexivity | reflexivity | repeat constructor
    | vm_compute; reflexivity | reflexivity].
Defined.

Lemma C5_counterexample :
  ConverterProxy_init uri_match_literal
    (example_converter 3 false [PyStr tag_a10] [PyStr ""] None)
    (two_tag_extension false)
  = ([], inr (mkConverterProxy
                (example_converter 3 false [PyStr tag_a10] [PyStr ""] None)
                (two_tag_extension false) "example.FooConverter"
                [tag_a10] [PyStr ""]))
  ∧ ConverterProxy_init uri_match_literal
      (unmatched_converter [PyInt 5]) (two_tag_extension false)
    = ([], inr (mkConverterProxy (unmatched_converter [PyInt 5])
                  (two_tag_extension false) "example.FooConverter" [] [])).
Proof. vm_compute. split; reflexivity. Qed.

Lemma C5_witness :
  (∃ p, outcome_of (ConverterProxy_init uri_match_literal
                      (example_converter 3 false [PyStr tag_a10]
                         [PyStr ""; PyType "example.Foo"] None)
                      (two_tag_extension false)) = inr p
        ∧ types p = [PyStr ""; PyType "example.Foo"])
  ∧ outcome_of (ConverterProxy_init uri_match_literal
                  (example_converter 3 false [PyStr tag_a10]
                     [PyType "example.Foo"; PyInt 5] None)
                  (two_tag_extension false))
    = inl (TypeError msg_types)
  ∧ (∃ p, ConverterProxy_init uri_match_literal
            (unmatched_converter [PyType "example.Foo"; PyInt 5])
            (two_tag_extension false) = py_ret p
          ∧ tags p = [] ∧ types p = []).
Proof.
  split; [|split].
  - apply (C5_declared_types_str_or_type uri_match_literal
             (example_converter 3 false [PyStr tag_a10]
                [PyStr ""; PyType "example.Foo"] None)
             (two_tag_extension false) [PyStr tag_a10]
             [PyStr ""; PyType "example.Foo"]);
      [reflexivity | reflexivity | repeat constructor | reflexivity
      | left; vm_compute; discriminate | left; vm_compute; lia
      | repeat constructor].
  - apply (C5_declared_types_str_or_type uri_match_literal
             (example_converter 3 false [PyStr tag_a10]
                [PyType "example.Foo"; PyInt 5] None)
             (two_tag_extension false) [PyStr tag_a10]
             [PyType "example.Foo"; PyInt 5]);
      [reflexivity | reflexivity | repeat constructor | reflexivity
      | left; vm_compute; discriminate | left; vm_compute; lia
      | apply Exists_cons_tl, Exists_cons_hd; reflexivity].
  - apply (C5_declared_types_str_or_type uri_match_literal
             (unmatched_converter [PyType "example.Foo"; PyInt 5])
             (two_tag_extension false) [PyStr tag_b10]
             [PyType "example.Foo"; PyInt 5]);
      [reflexivity | reflexivity | repeat constructor | reflexivity
      | vm_compute; reflexivity | reflexivity].
Defined.

(** A delegate whose [select_tag] picks the last candidate is obeyed, and a
    delegate without [select_tag] gets its only tag. *)
Lemma C7_witness :
  select_tag
    (mkConverterProxy (two_tag_converter false (Some (Some last_candidate)))
       (two_tag_extension false) "example.FooConverter"
       [tag_a10; tag_a11] [PyType "example.Foo"])
    PyNone tt
  = py_ret (Some tag_a11)
  ∧ select_tag
      (mkConverterProxy
         (example_converter 3 false [PyStr tag_a10] [PyType "example.Foo"]
            None)
         (two_tag_extension false) "example.FooConverter"
         [tag_a10] [PyType "example.Foo"])
      PyNone tt
    = py_ret (Some tag_a10).
Proof.
  split.
  - apply (proj2 (C7_select_tag_default_and_delegate
                    (mkConverterProxy
                       (two_tag_converter false (Some (Some last_candidate)))
                       (two_tag_extension false) "example.FooConverter"
                       [tag_a10; tag_a11] [PyType "example.Foo"])
                    PyNone tt) last_candidate).
    reflexivity.
  - apply (proj1 (C7_select_tag_default_and_delegate
                    (mkConverterProxy
                       (example_converter 3 false [PyStr tag_a10]
                          [PyType "example.Foo"] None)
                       (two_tag_extension false) "example.FooConverter"
                       [tag_a10] [PyType "example.Foo"])
                    PyNone tt) tag_a10);
      [left; reflexivity | reflexivity].
Defined.

Lemma C6_witness :
  ConverterProxy_init uri_match_literal
    (two_tag_converter false (Some (Some first_candidate)))
    (two_tag_extension false)
  = ([], inr (mkConverterProxy
                (two_tag_converter false (Some (Some first_candidate)))
                (two_tag_extension false) "example.FooConverter"
                [tag_a10; tag_a11] [PyType "example.Foo"]))
  ∧ Sorted String.le [tag_a10; tag_a11]
  ∧ NoDup [tag_a10; tag_a11].
Proof.
  assert (ConverterProxy_init uri_match_literal
            (two_tag_converter false (Some (Some first_candidate)))
            (two_tag_extension false)
          = ([], inr (mkConverterProxy
                (two_tag_converter false (Some (Some first_candidate)))
                (two_tag_extension false) "example.FooConverter"
                [tag_a10; tag_a11] [PyType "example.Foo"]))) as Hinit
    by (vm_compute; reflexivity).
  split; [exact Hinit|].
  destruct (C6_tags_sorted_union_of_matches uri_match_literal _ _ _ _ Hinit)
    as (_ & Hsorted & Hnodup & _).
  split; [exact Hsorted | exact Hnodup].
Defined.

Lemma C8_witness :
  ConverterProxy_init uri_match_literal
    (example_converter 4 true [PyStr tag_a10; PyInt 5] [PyType "example.Foo"]
       None)
    (two_tag_extension false)
  = py_raise (TypeError msg_tags_str).
Proof.
  apply (C8_non_str_tag_pattern_rejected uri_match_literal
           (example_converter 4 true [PyStr tag_a10; PyInt 5]
              [PyType "example.Foo"] None)
           (two_tag_extension false) [PyStr tag_a10; PyInt 5]);
    [reflexivity | apply Exists_cons_tl, Exists_cons_hd; reflexivity].
Defined.

Lemma C10_witness :
  ConverterProxy_init uri_match_literal
    (unmatched_converter [PyType "example.Foo"]) (two_tag_extension false)
  = ([], inr (mkConverterProxy (unmatched_converter [PyType "example.Foo"])
                (two_tag_extension false) "example.FooConverter" [] []))
  ∧ select_tag
      (mkConverterProxy (unmatched_converter [PyType "example.Foo"])
         (two_tag_extension false) "example.FooConverter" [] [])
      PyNone tt
    = py_raise (IndexError "list index out of range").
Proof.
  assert (ConverterProxy_init uri_match_literal
            (unmatched_converter [PyType "example.Foo"])
            (two_tag_extension false)
          = ([], inr (mkConverterProxy
                (unmatched_converter [PyType "example.Foo"])
                (two_tag_extension false) "example.FooConverter" [] [])))
    as Hinit by (vm_compute; reflexivity).
  split; [exact Hinit|].
  apply (C10_default_select_tag_needs_a_resolved_tag uri_match_literal
           _ _ _ _ PyNone tt Hinit); reflexivity.
Defined.

(** The default selection on a proxy with two resolved tags (a converter
    that inherits from [Converter]) returns the smaller one. *)
Example select_tag_two_tags :
  select_tag
    (mkConverterProxy (two_tag_converter true None) (two_tag_extension false)
       "example.FooConverter" [tag_a10; tag_a11] [PyType "example.Foo"])
    PyNone tt
  = py_ret (Some tag_a10).
Proof. reflexivity. Qed.

(** ** Plugin discovery *)

Lemma wrap_elements_resource_mappings (name version : option string)
    (elements : list PluginElement) (results : list ResourceMappingProxy) :
  wrap_elements ResourceMappingProxy_init name version elements results
  = (element_warnings elements,
     inr (results ++ surviving name version elements)).
Proof.
  revert results. induction elements as [|element rest IH]; intros results.
  - simpl. by rewrite app_nil_r.
  - cbn [wrap_elements]. change (?m ≫= ?k) with (py_bind m k).
    destruct element as [entries|v].
    + cbn. rewrite IH. simpl. by rewrite <- app_assoc.
    + cbn. rewrite IH. done.
Qed.

Lemma list_entry_points_resource_mappings (points : list EntryPoint)
    (results : list ResourceMappingProxy) :
  list_entry_points ResourceMappingProxy_init points results
  = (List.flat_map plugin_warnings points,
     inr (results ++ List.flat_map plugin_contributions points)).
Proof.
  revert results. induction points as [|ep rest IH]; intros results.
  - simpl. by rewrite app_nil_r.
  - cbn [list_entry_points]. change (?m ≫= ?k) with (py_bind m k).
    cbn [List.flat_map].
    unfold plugin_warnings at 1, plugin_contributions at 1.
    destruct (ep_factory ep) as [exc|elements].
    + cbn. rewrite IH. done.
    + cbn. rewrite wrap_elements_resource_mappings. cbn. rewrite IH.
      by rewrite <- app_assoc.
Qed.

Lemma surviving_app (name version : option string)
    (xs ys : list PluginElement) :
  surviving name version (xs ++ ys)
  = surviving name version xs ++ surviving name version ys.
Proof. unfold surviving. by rewrite flat_map_app. Qed.

Lemma element_warnings_app (xs ys : list PluginElement) :
  element_warnings (xs ++ ys) = element_warnings xs ++ element_warnings ys.
Proof. unfold element_warnings. by rewrite flat_map_app. Qed.

(** C3: discovery of the resource-mapping plugins always returns: its
    result is, plugin after plugin in order, what each plugin contributes,
    and its warnings are, in the same order, those of each plugin.  A
    factory that raises contributes nothing and costs one warning with the
    error's type and message; a non-conforming element costs one warning and
    the conforming elements before and after it are kept in order. *)
Theorem C3_discovery_isolates_failures (registry : list EntryPoint) :
  get_resource_mappings registry
  = (List.flat_map plugin_warnings
       (iter_entry_points registry resource_mappings_group),
     inr (List.flat_map plugin_contributions
            (iter_entry_points registry resource_mappings_group)))
  ∧ (∀ ep exc, ep_factory ep = inl exc →
       plugin_contributions ep = []
       ∧ plugin_warnings ep
         = [mkWarning (exc_class exc +:+ ": " +:+ exc_message exc)
              AsdfWarning])
  ∧ (∀ ep xs v ys, ep_factory ep = inr (xs ++ ElemObject v :: ys) →
       plugin_contributions ep
       = surviving (ep_package_name ep) (ep_package_version ep) xs
         ++ surviving (ep_package_name ep) (ep_package_version ep) ys
       ∧ plugin_warnings ep
         = element_warnings xs
           ++ mkWarning ("TypeError: " +:+ msg_not_mapping) AsdfWarning
              :: element_warnings ys)
  ∧ (∀ ep ms, ep_factory ep = inr (ElemMapping <$> ms) →
       plugin_contributions ep
       = (λ m, mkResourceMappingProxy m (ep_package_name ep)
                 (ep_package_version ep)) <$> ms
       ∧ plugin_warnings ep = []).
Proof.
  split; [apply list_entry_points_resource_mappings|].
  unfold plugin_contributions, plugin_warnings.
  split; [by intros ep exc ->|]. split.
  - intros ep xs v ys ->.
    by rewrite surviving_app, element_warnings_app.
  - intros ep ms ->. unfold surviving, element_warnings.
    induction ms as [|m ms [IH1 IH2]]; [done|].
    rewrite !fmap_cons. cbn [List.flat_map]. rewrite IH1, IH2.
    split; reflexivity.
Qed.

(** The three runs of [test_get_resource_mappings], and the run of three
    plugins of which the second raises. *)
Example get_resource_mappings_successful :
  get_resource_mappings [entry_point_successful]
  = ([], inr [mkResourceMappingProxy
                [("http://somewhere.org/schemas/foo-1.0.0", "foo")]
                (Some "asdf") (Some "3.0.0");
              mkResourceMappingProxy
                [("http://somewhere.org/schemas/bar-1.0.0", "bar")]
                (Some "asdf") (Some "3.0.0")]).
Proof. reflexivity. Qed.

Example get_resource_mappings_failing :
  get_resource_mappings [entry_point_failing]
  = ([mkWarning "Exception: NOPE" AsdfWarning], inr []).
Proof. reflexivity. Qed.

Example get_resource_mappings_bad_element :
  get_resource_mappings [entry_point_bad_element]
  = ([mkWarning
        "TypeError: Resource mapping must implement the Mapping interface"
        AsdfWarning],
     inr [mkResourceMappingProxy
            [("http://somewhere.org/schemas/baz-1.0.0", "baz")]
            (Some "asdf") (Some "3.0.0");
          mkResourceMappingProxy
            [("http://somewhere.org/schemas/foz-1.0.0", "foz")]
            (Some "asdf") (Some "3.0.0")]).
Proof. reflexivity. Qed.

Example get_resource_mappings_second_raises :
  get_resource_mappings
    [entry_point_successful; entry_point_failing; entry_point_bad_element]
  = ([mkWarning "Exception: NOPE" AsdfWarning;
      mkWarning
        "TypeError: Resource mapping must implement the Mapping interface"
        AsdfWarning],
     inr [mkResourceMappingProxy
            [("http://somewhere.org/schemas/foo-1.0.0", "foo")]
            (Some "asdf") (Some "3.0.0");
          mkResourceMappingProxy
            [("http://somewhere.org/schemas/bar-1.0.0", "bar")]
            (Some "asdf") (Some "3.0.0");
          mkResourceMappingProxy
            [("http://somewhere.org/schemas/baz-1.0.0", "baz")]
            (Some "asdf") (Some "3.0.0");
          mkResourceMappingProxy
            [("http://somewhere.org/schemas/foz-1.0.0", "foz")]
            (Some "asdf") (Some "3.0.0")]).
Proof. reflexivity. Qed.

(** Whatever the proxy class does with an element, discovery returns. *)
Lemma wrap_elements_returns {P : Type}
    (proxy_class : PluginElement → option string → option string → Py P)
    (name version : option string) (elements : list PluginElement)
    (results : list P) :
  ∃ ws rs, wrap_elements proxy_class name version elements results
           = (ws, inr rs).
Proof.
  revert results. induction elements as [|element rest IH]; intros results.
  - by eexists _, _.
  - cbn [wrap_elements]. change (?m ≫= ?k) with (py_bind m k).
    destruct (proxy_class element name version) as [ws [exc|p]]; cbn.
    + destruct (IH results) as (ws' & rs & ->). by eexists _, _.
    + destruct (IH (results ++ [p])) as (ws' & rs & ->). by eexists _, _.
Qed.

Lemma list_entry_points_returns {P : Type}
    (proxy_class : PluginElement → option string → option string → Py P)
    (points : list EntryPoint) (results : list P) :
  ∃ ws rs, list_entry_points proxy_class points results = (ws, inr rs).
Proof.
  revert results. induction points as [|ep rest IH]; intros results.
  - by eexists _, _.
  - cbn [list_entry_points]. change (?m ≫= ?k) with (py_bind m k).
    destruct (ep_factory ep) as [exc|elements]; cbn.
    + destruct (IH results) as (ws' & rs & ->). by eexists _, _.
    + destruct (wrap_elements_returns proxy_class (ep_package_name ep)
                  (ep_package_version ep) elements results)
        as (ws1 & rs1 & ->). cbn.
      destruct (IH rs1) as (ws' & rs & ->). by eexists _, _.
Qed.

(** ** The load path *)

Section TreeNode_induction.
Variable Q : TreeNode → Prop.
Hypothesis Hscalar : ∀ tag v, Q (NScalar tag v).
Hypothesis Hsequence : ∀ tag items, Forall Q items → Q (NSequence tag items).
Hypothesis Hmapping :
  ∀ tag entries, Forall (λ kv, Q (snd kv)) entries → Q (NMapping tag entries).

(** Induction on a tree with the hypothesis for every child. *)
Fixpoint TreeNode_nested_ind (n : TreeNode) : Q n :=
  match n with
  | NScalar tag v => Hscalar tag v
  | NSequence tag items =>
      Hsequence tag items
        ((fix go (l : list TreeNode) : Forall Q l :=
            match l with
            | [] => List.Forall_nil Q
            | x :: r => @List.Forall_cons _ Q x r (TreeNode_nested_ind x) (go r)
            end) items)
  | NMapping tag entries =>
      Hmapping tag entries
        ((fix go (l : list (string * TreeNode))
            : Forall (λ kv, Q (snd kv)) l :=
            match l with
            | [] => List.Forall_nil _
            | kv :: r =>
                @List.Forall_cons _ (λ kv, Q (snd kv)) kv r
                  (TreeNode_nested_ind (snd kv)) (go r)
            end) entries)
  end.
End TreeNode_induction.

Section LoadPath_facts.
Variable registry : list TreeConverter.
Variable suppress : bool.

Local Notation "'unmatched'" :=
  (λ t : string, converter_for_tag registry t = None).

Lemma walk_sequence tag items st :
  walk registry suppress (NSequence tag items) st
  = let '(items', st') := walk_items registry suppress items st in
    convert_node registry suppress tag (VSequence items') st'.
Proof. reflexivity. Qed.

Lemma walk_mapping tag entries st :
  walk registry suppress (NMapping tag entries) st
  = let '(entries', st') := walk_entries registry suppress entries st in
    convert_node registry suppress tag (VMapping entries') st'.
Proof. reflexivity. Qed.

Lemma record_all_app (l1 l2 : list string) st :
  record_all suppress (l1 ++ l2) st
  = record_all suppress l2 (record_all suppress l1 st).
Proof. apply fold_left_app. Qed.

Lemma convert_node_spec tag raw st :
  convert_node registry suppress tag raw st
  = (apply_converter registry tag raw,
     record_all suppress (filter unmatched (option_list tag)) st).
Proof.
  destruct tag as [t|]; simpl; [|done].
  rewrite filter_cons, filter_nil.
  case_decide as Hc.
  - by rewrite Hc.
  - by destruct (converter_for_tag registry t).
Qed.

Lemma unresolved_tags_sequence tag items :
  unresolved_tags registry (NSequence tag items)
  = filter unmatched (List.flat_map node_tags items)
    ++ filter unmatched (option_list tag).
Proof. unfold unresolved_tags. simpl. apply filter_app. Qed.

Lemma unresolved_tags_mapping tag entries :
  unresolved_tags registry (NMapping tag entries)
  = filter unmatched (List.flat_map (λ kv, node_tags (snd kv)) entries)
    ++ filter unmatched (option_list tag).
Proof. unfold unresolved_tags. simpl. apply filter_app. Qed.

(** The walk returns the structural value and records, in order, the
    unmatched tags of the tree. *)
Lemma walk_spec (n : TreeNode) : ∀ st,
  walk registry suppress n st
  = (structural_value registry n,
     record_all suppress (unresolved_tags registry n) st).
Proof.
  induction n as [tag v|tag items IH|tag entries IH]
    using TreeNode_nested_ind; intros st.
  - simpl. apply convert_node_spec.
  - rewrite walk_sequence, unresolved_tags_sequence, record_all_app.
    assert (∀ s, walk_items registry suppress items s
                 = (List.map (structural_value registry) items,
                    record_all suppress
                      (filter unmatched (List.flat_map node_tags items)) s))
      as ->.
    { induction IH as [|x r Hx _ IHr]; intros s; [done|].
      simpl. rewrite Hx, IHr, filter_app, record_all_app. done. }
    apply convert_node_spec.
  - rewrite walk_mapping, unresolved_tags_mapping, record_all_app.
    assert (∀ s, walk_entries registry suppress entries s
                 = (List.map (λ kv, (fst kv, structural_value registry (snd kv)))
                      entries,
                    record_all suppress
                      (filter unmatched
                         (List.flat_map (λ kv, node_tags (snd kv)) entries)) s))
      as ->.
    { induction IH as [|[k x] r Hx _ IHr]; intros s; [done|].
      simpl in *. rewrite Hx, IHr, filter_app, record_all_app. done. }
    apply convert_node_spec.
Qed.

End LoadPath_facts.

Lemma record_all_suppressed (l : list string) (st : LoadState) :
  record_all true l st = st.
Proof. induction l as [|t l IH]; [done|]. apply IH. Qed.

Lemma record_all_unsuppressed (l : list string) (st : LoadState) :
  record_all false l st
  = mkLoadState (warned st ∪ list_to_set l)
      (issued st ++ (unrecognized_warning <$> first_occurrences (warned st) l)).
Proof.
  revert st. induction l as [|t l IH]; intros [W ws].
  - simpl. by rewrite (right_id_L ∅ (∪)), app_nil_r.
  - unfold record_all in *. cbn [fold_left first_occurrences].
    unfold record_unresolved at 2. cbn [warned issued].
    destruct (bool_decide (t ∈ W)) eqn:Ht; rewrite IH; cbn [warned issued].
    + apply bool_decide_eq_true in Ht. f_equal.
      rewrite list_to_set_cons. set_solver.
    + rewrite fmap_cons, <- app_assoc. f_equal.
      rewrite list_to_set_cons. set_solver.
Qed.

Lemma first_occurrences_spec (l : list string) : ∀ seen : gset string,
  NoDup (first_occurrences seen l)
  ∧ ∀ t, t ∈ first_occurrences seen l ↔ t ∈ l ∧ t ∉ seen.
Proof.
  induction l as [|x l IH]; intros seen; simpl.
  - split; [constructor|]. intros t. rewrite elem_of_nil. tauto.
  - destruct (bool_decide (x ∈ seen)) eqn:Hx.
    + apply bool_decide_eq_true in Hx.
      destruct (IH seen) as [Hn Hm]. split; [done|].
      intros t. rewrite Hm, elem_of_cons. split; [tauto|].
      intros [[->|Hin] Hnot]; [done | tauto].
    + apply bool_decide_eq_false in Hx.
      destruct (IH ({[x]} ∪ seen)) as [Hn Hm]. split.
      * constructor; [|done]. rewrite Hm. set_solver.
      * intros t. rewrite !elem_of_cons, Hm.
        destruct (decide (t = x)) as [->|Hne]; [tauto|]. set_solver.
Qed.

Lemma string_length_app (s1 s2 : string) :
  String.length (s1 +:+ s2) = String.length s1 + String.length s2.
Proof. induction s1 as [|a s1 IH]; simpl; [done | by rewrite IH]. Qed.

(** A tag is read back from its warning. *)
Lemma unrecognized_warning_inj : Inj (=) (=) unrecognized_warning.
Proof.
  intros t1 t2 [= Hmsg]. unfold msg_unrecognized in Hmsg.
  revert t2 Hmsg. induction t1 as [|a t1 IH]; intros [|b t2] Hmsg.
  - done.
  - exfalso. apply (f_equal String.length) in Hmsg.
    simpl in Hmsg. rewrite string_length_app in Hmsg. simpl in Hmsg. lia.
  - exfalso. apply (f_equal String.length) in Hmsg.
    simpl in Hmsg. rewrite string_length_app in Hmsg. simpl in Hmsg. lia.
  - simpl in Hmsg. injection Hmsg as -> Hmsg. f_equal. by apply IH.
Qed.

Lemma structural_value_unmatched registry (n : TreeNode) :
  (∀ t, t ∈ node_tags n → converter_for_tag registry t = None) →
  structural_value registry n = strip_tags n.
Proof.
  induction n as [tag v|tag items IH|tag entries IH]
    using TreeNode_nested_ind; intros Hall.
  - destruct tag as [t|]; simpl; [|done].
    rewrite (Hall t); [done|]. simpl. by left.
  - assert (List.map (structural_value registry) items
            = List.map strip_tags items) as Hitems.
    { apply map_ext_in. intros x Hx.
      eapply Forall_forall in IH; [apply IH|by apply list_elem_of_In].
      intros t Ht. apply Hall. simpl. apply elem_of_app. left.
      apply list_elem_of_In, in_flat_map. exists x.
      split; [done | by apply list_elem_of_In]. }
    simpl. rewrite Hitems.
    destruct tag as [t|]; simpl; [|done].
    rewrite (Hall t); [done|]. simpl. apply elem_of_app. right. by left.
  - assert (List.map (λ kv, (fst kv, structural_value registry (snd kv))) entries
            = List.map (λ kv, (fst kv, strip_tags (snd kv))) entries)
      as Hentries.
    { apply map_ext_in. intros kv Hkv. f_equal.
      eapply Forall_forall in IH; [apply IH|by apply list_elem_of_In].
      intros t Ht. apply Hall. simpl. apply elem_of_app. left.
      apply list_elem_of_In, in_flat_map. exists kv.
      split; [done | by apply list_elem_of_In]. }
    simpl. rewrite Hentries.
    destruct tag as [t|]; simpl; [|done].
    rewrite (Hall t); [done|]. simpl. apply elem_of_app. right. by left.
Qed.

(** C2: the load path always returns.  Its value is the structural value
    of the tree, in which a node whose tag has no converter is the raw
    mapping, sequence or scalar with the tag dropped; with warnings enabled
    it issues one warning for each distinct tag without a converter, however
    often the tag occurs, and with warnings suppressed it returns the same
    value and issues none. *)
Theorem C2_unresolved_tags_degrade_to_raw_values
    (registry : list TreeConverter) (tree : TreeNode) :
  from_tree registry false tree
  = (unrecognized_warning
       <$> first_occurrences ∅ (unresolved_tags registry tree),
     inr (structural_value registry tree))
  ∧ from_tree registry true tree
    = ([], inr (structural_value registry tree))
  ∧ NoDup (unrecognized_warning
             <$> first_occurrences ∅ (unresolved_tags registry tree))
  ∧ (∀ t, t ∈ first_occurrences ∅ (unresolved_tags registry tree) ↔
          t ∈ node_tags tree ∧ converter_for_tag registry t = None)
  ∧ (∀ t, converter_for_tag registry t = None →
       (∀ v, structural_value registry (NScalar (Some t) v) = VScalar v)
       ∧ (∀ items, structural_value registry (NSequence (Some t) items)
                   = VSequence (List.map (structural_value registry) items))
       ∧ (∀ entries, structural_value registry (NMapping (Some t) entries)
                     = VMapping
                         (List.map
                            (λ kv, (fst kv, structural_value registry (snd kv)))
                            entries)))
  ∧ ((∀ t, t ∈ node_tags tree → converter_for_tag registry t = None) →
     structural_value registry tree = strip_tags tree).
Proof.
  destruct (first_occurrences_spec (unresolved_tags registry tree) ∅)
    as [Hnodup Hmem].
  split; [|split; [|split; [|split; [|split]]]].
  - unfold from_tree. rewrite walk_spec, record_all_unsuppressed. done.
  - unfold from_tree. rewrite walk_spec, record_all_suppressed. done.
  - apply NoDup_fmap_2; [apply unrecognized_warning_inj | done].
  - intros t. rewrite Hmem. unfold unresolved_tags.
    rewrite list_elem_of_filter. split.
    + intros [[Hc Hin] _]. done.
    + intros [Hin Hc]. split; [done | apply not_elem_of_empty].
  - intros t Hc. repeat split; intros; simpl; by rewrite Hc.
  - apply structural_value_unmatched.
Qed.

(** The run of [test_undefined_tag]: the data comes back as raw structures,
    the two core tags are converted, and two warnings are issued, the inner
    tag first. *)
Example from_tree_undefined_tag :
  from_tree core_registry false undefined_tag_tree
  = ([unrecognized_warning tag_also_undefined;
      unrecognized_warning tag_undefined],
     inr (VMapping
            [("undefined_data",
              VSequence
                [VScalar (SInt 5);
                 VMapping [("message", VScalar (SStr "there is no tag"))];
                 VObject "numpy.ndarray"
                   (VSequence [raw_row [1; 2; 3]%Z; raw_row [4; 5; 6]%Z]);
                 VSequence
                   [VObject "numpy.ndarray"
                      (VSequence [raw_row [7]%Z; raw_row [8]%Z; raw_row [9]%Z;
                                  raw_row [10]%Z]);
                    VObject "complex" (VScalar (SStr "3.14j"))]])])).
Proof. vm_compute. reflexivity. Qed.

Example from_tree_undefined_tag_message :
  w_message (unrecognized_warning tag_undefined)
  = "tag:nowhere.org:custom/undefined_tag-1.0.0 is not recognized, converting to raw Python data structure".
Proof. reflexivity. Qed.

Example from_tree_undefined_tag_ignored :
  warnings_of (from_tree core_registry true undefined_tag_tree) = [].
Proof. vm_compute. reflexivity. Qed.

(** A tag without a converter that occurs three times warns once. *)
Example from_tree_repeated_tag :
  from_tree [] false
    (NSequence (Some tag_undefined)
       [NScalar (Some tag_undefined) (SInt 1);
        NScalar (Some tag_undefined) (SInt 2)])
  = ([unrecognized_warning tag_undefined],
     inr (VSequence [VScalar (SInt 1); VScalar (SInt 2)])).
Proof. vm_compute. reflexivity. Qed.

(** ** The outcomes of construction *)

Lemma forallb_Forall_true {A} (f : A → bool) (l : list A) :
  forallb f l = true ↔ Forall (λ v, f v = true) l.
Proof.
  induction l as [|x l IH]; simpl.
  - split; [constructor | done].
  - rewrite andb_true_iff, IH, Forall_cons. done.
Qed.

Lemma forallb_Exists_false {A} (f : A → bool) (l : list A) :
  forallb f l = false ↔ Exists (λ v, f v = false) l.
Proof.
  induction l as [|x l IH]; simpl.
  - rewrite Exists_nil. split; [done | tauto].
  - rewrite andb_false_iff, IH, Exists_cons. done.
Qed.

(** The warning of the multiple-tags check. *)
Definition legacy_warning : Warning :=
  mkWarning msg_multiple_legacy AsdfWarning.

Section ConverterProxy_outcomes.
Context {Ctx : Type}.
Variable uri_match : string → string → bool.

Implicit Types (d : ConverterObj Ctx) (e : ExtensionProxy).
Implicit Types (p q r : ConverterProxy Ctx) (ps ts : list PyVal).

Lemma collect_types_forallb ts :
  collect_types ts []
  = ([], if forallb isinstance_str_or_type ts
         then inr ts else inl (TypeError msg_types)).
Proof.
  destruct (forallb isinstance_str_or_type ts) eqn:Hb.
  - apply forallb_Forall_true in Hb. by rewrite collect_types_ok.
  - apply forallb_Exists_false in Hb. by rewrite collect_types_bad.
Qed.

(** [__init__] after the [tags] loop, as one case analysis. *)
Lemma init_after_tags_cases d e (R : gset string) :
  init_after_tags d e R
  = if bool_decide (1 < size R) && negb (hasattr_select_tag d)
       && negb (mro_has_Converter d)
    then py_raise (RuntimeError msg_multiple)
    else
      (if bool_decide (1 < size R) && negb (hasattr_select_tag d)
       then [legacy_warning] else [],
       if bool_decide (size R = 0) && negb (hasattr_select_tag d)
       then inr (mkConverterProxy d e (obj_class_name d) (sorted R) [])
       else if forallb isinstance_str_or_type (default [] (attr_types d))
            then inr (mkConverterProxy d e (obj_class_name d) (sorted R)
                        (default [] (attr_types d)))
            else inl (TypeError msg_types)).
Proof.
  unfold init_after_tags. change (?m ≫= ?k) with (py_bind m k).
  rewrite collect_types_forallb, sorted_length.
  destruct (bool_decide (1 < size R)), (hasattr_select_tag d),
    (mro_has_Converter d), (bool_decide (size R = 0)),
    (forallb isinstance_str_or_type (default [] (attr_types d)));
    reflexivity.
Qed.

(** [__init__] as one case analysis. *)
Lemma ConverterProxy_init_cases d e :
  ConverterProxy_init uri_match d e
  = if negb (isinstance_Converter d)
    then py_raise (TypeError msg_not_converter)
    else if forallb isinstance_str (default [] (attr_tags d))
         then init_after_tags d e
                (resolved_set uri_match (default [] (attr_tags d)) e)
         else py_raise (TypeError msg_tags_str).
Proof.
  destruct (isinstance_Converter d) eqn:Hi; simpl.
  2: { unfold ConverterProxy_init. by rewrite Hi. }
  assert (∃ ps, attr_tags d = Some ps) as [ps Hps].
  { unfold isinstance_Converter in Hi.
    destruct (attr_tags d) as [ps|]; [by eexists | done]. }
  rewrite Hps. simpl.
  destruct (forallb isinstance_str ps) eqn:Hb.
  - apply forallb_Forall_true in Hb.
    by apply ConverterProxy_init_str.
  - apply forallb_Exists_false in Hb.
    unfold ConverterProxy_init. rewrite Hi, Hps. simpl.
    by rewrite collect_relevant_tags_bad.
Qed.

Lemma isinstance_Converter_false d :
  isinstance_Converter d = false ↔
  attr_tags d = None ∨ attr_types d = None
  ∨ has_to_yaml_tree d = false ∨ has_from_yaml_tree d = false.
Proof.
  unfold isinstance_Converter.
  rewrite !andb_false_iff, !bool_decide_eq_false, <- !eq_None_not_Some.
  tauto.
Qed.

(** X1: construction returns a proxy exactly when the delegate has the four
    members, every tag pattern is a [str], more than one resolved tag comes
    with a [select_tag] attribute or a class that inherits from [Converter],
    and the declared types are all [str] or [type] unless no tag resolved and
    there is no [select_tag] attribute. *)
Theorem ConverterProxy_init_succeeds_iff d e :
  (∃ ws p, ConverterProxy_init uri_match d e = (ws, inr p)) ↔
  isinstance_Converter d = true
  ∧ Forall (λ v, isinstance_str v = true) (default [] (attr_tags d))
  ∧ (1 < size (resolved_set uri_match (default [] (attr_tags d)) e) →
     hasattr_select_tag d = true ∨ mro_has_Converter d = true)
  ∧ ((resolved_set uri_match (default [] (attr_tags d)) e = ∅
      ∧ hasattr_select_tag d = false)
     ∨ Forall (λ v, isinstance_str_or_type v = true)
         (default [] (attr_types d))).
Proof.
  rewrite ConverterProxy_init_cases, init_after_tags_cases.
  rewrite <- !forallb_Forall_true.
  set (R := resolved_set uri_match (default [] (attr_tags d)) e).
  assert (bool_decide (size R = 0) = bool_decide (R = ∅)) as ->.
  { apply bool_decide_ext. split.
    - intros H. by apply size_empty_inv, leibniz_equiv in H.
    - intros ->. apply size_empty. }
  destruct (isinstance_Converter d); simpl.
  2: { split; [by intros (? & ? & ?) | by intros [? _]]. }
  destruct (forallb isinstance_str (default [] (attr_tags d))); simpl.
  2: { split; [by intros (? & ? & ?) | by intros (_ & ? & _)]. }
  repeat case_bool_decide;
    destruct (hasattr_select_tag d), (mro_has_Converter d),
      (forallb isinstance_str_or_type (default [] (attr_types d)));
    simpl; split;
    first [ by intros (? & ? & [=])
          | by (intros _; eexists _, _)
          | naive_solver ].
Qed.

End ConverterProxy_outcomes.

Section ConverterProxy_behaviour.
Context {Ctx : Type}.
Variable uri_match : string → string → bool.

Implicit Types (d : ConverterObj Ctx) (e : ExtensionProxy).
Implicit Types (p q r : ConverterProxy Ctx) (ps ts : list PyVal).

(** X2: construction issues at most one warning, the one of the multiple-tags
    check, and issues it exactly for a delegate with the four members, [str]
    patterns only, more than one resolved tag, no [select_tag] attribute and
    a class that inherits from [Converter], whether or not the declared types
    then pass. *)
Theorem ConverterProxy_init_warns_iff d e :
  (warnings_of (ConverterProxy_init uri_match d e) = []
   ∨ warnings_of (ConverterProxy_init uri_match d e) = [legacy_warning])
  ∧ (warnings_of (ConverterProxy_init uri_match d e) = [legacy_warning] ↔
     isinstance_Converter d = true
     ∧ Forall (λ v, isinstance_str v = true) (default [] (attr_tags d))
     ∧ 1 < size (resolved_set uri_match (default [] (attr_tags d)) e)
     ∧ hasattr_select_tag d = false
     ∧ mro_has_Converter d = true).
Proof.
  rewrite ConverterProxy_init_cases, init_after_tags_cases.
  rewrite <- !forallb_Forall_true.
  destruct (isinstance_Converter d),
    (forallb isinstance_str (default [] (attr_tags d))); simpl;
    try (split; [by left | split; [done | by intros (? & ? & _)]]).
  case_bool_decide;
    destruct (hasattr_select_tag d), (mro_has_Converter d); simpl;
    (split; [by auto | split; [done || by intros _ | naive_solver]]).
Qed.

(** X3: construction fails with the [TypeError] about the Converter interface
    exactly when the delegate lacks one of [tags], [types], [to_yaml_tree]
    and [from_yaml_tree]; such a delegate gets this error whatever else is
    wrong with it. *)
Theorem ConverterProxy_init_not_a_converter_iff d e :
  outcome_of (ConverterProxy_init uri_match d e)
  = inl (TypeError msg_not_converter) ↔
  attr_tags d = None ∨ attr_types d = None
  ∨ has_to_yaml_tree d = false ∨ has_from_yaml_tree d = false.
Proof.
  rewrite <- isinstance_Converter_false.
  rewrite ConverterProxy_init_cases, init_after_tags_cases.
  destruct (isinstance_Converter d); simpl; [|done].
  destruct (forallb isinstance_str (default [] (attr_tags d))); simpl.
  2: { split; [intros [= H]; discriminate H | done]. }
  repeat match goal with
         | |- context [if ?b then _ else _] => destruct b; simpl
         end; (split; [intros [= H]; discriminate H | done]).
Qed.

(** X4: construction fails with a [RuntimeError] exactly when a delegate with
    the four members and [str] patterns only resolves more than one tag, has
    no [select_tag] attribute, and its class does not inherit from
    [Converter]. *)
Theorem ConverterProxy_init_RuntimeError_iff d e :
  (∃ msg, outcome_of (ConverterProxy_init uri_match d e)
          = inl (RuntimeError msg)) ↔
  isinstance_Converter d = true
  ∧ Forall (λ v, isinstance_str v = true) (default [] (attr_tags d))
  ∧ 1 < size (resolved_set uri_match (default [] (attr_tags d)) e)
  ∧ hasattr_select_tag d = false
  ∧ mro_has_Converter d = false.
Proof.
  rewrite ConverterProxy_init_cases, init_after_tags_cases.
  rewrite <- !forallb_Forall_true.
  destruct (isinstance_Converter d),
    (forallb isinstance_str (default [] (attr_tags d))); simpl;
    try (split; [by intros [? ?] | by intros (? & ? & _)]).
  case_bool_decide;
    destruct (hasattr_select_tag d), (mro_has_Converter d); simpl;
    repeat match goal with
           | |- context [if ?b then _ else _] => destruct b; simpl
           end;
    (split; [try (by intros [? ?]); naive_solver
            | try (by eexists); naive_solver]).
Qed.

End ConverterProxy_behaviour.

Section ConverterProxy_invariants.
Context {Ctx : Type}.
Variable uri_match : string → string → bool.

Implicit Types (d : ConverterObj Ctx) (e : ExtensionProxy).
Implicit Types (p q r : ConverterProxy Ctx) (ps ts : list PyVal).

(** What a successful construction stores. *)
Lemma ConverterProxy_init_inr_fields d e ws p :
  ConverterProxy_init uri_match d e = (ws, inr p) →
  _delegate p = d ∧ _extension p = e ∧ _class_name p = obj_class_name d
  ∧ _tags p = sorted (resolved_set uri_match (default [] (attr_tags d)) e)
  ∧ _types p
    = (if bool_decide
            (resolved_set uri_match (default [] (attr_tags d)) e = ∅)
          && negb (hasattr_select_tag d)
       then [] else default [] (attr_types d))
  ∧ Forall (λ v, isinstance_str_or_type v = true) (_types p).
Proof.
  rewrite ConverterProxy_init_cases, init_after_tags_cases.
  set (R := resolved_set uri_match (default [] (attr_tags d)) e).
  assert (bool_decide (size R = 0) = bool_decide (R = ∅)) as ->.
  { apply bool_decide_ext. split.
    - intros H. by apply size_empty_inv, leibniz_equiv in H.
    - intros ->. apply size_empty. }
  destruct (forallb isinstance_str_or_type (default [] (attr_types d)))
    eqn:Hty; [apply forallb_Forall_true in Hty|];
    repeat match goal with
           | |- context [if ?b then _ else _] => destruct b; simpl
           end; intros [= _ <-]; simpl; repeat split; done || constructor.
Qed.

(** X5: the types of a constructed proxy are [str] or [type] values: they are
    the delegate's declared types, in order, or none at all when no tag
    resolved and the delegate has no [select_tag] attribute. *)
Theorem ConverterProxy_types_are_str_or_type d e ws p :
  ConverterProxy_init uri_match d e = (ws, inr p) →
  Forall (λ v, isinstance_str_or_type v = true) (types p)
  ∧ types p
    = if bool_decide (tags p = []) && negb (hasattr_select_tag d)
      then [] else default [] (attr_types d).
Proof.
  intros Hinit.
  destruct (ConverterProxy_init_inr_fields d e ws p Hinit)
    as (_ & _ & _ & Htags & Htypes & Hall).
  unfold types, tags. split; [done|]. rewrite Htypes, Htags.
  set (R := resolved_set uri_match (default [] (attr_tags d)) e) in *.
  assert (bool_decide (sorted R = []) = bool_decide (R = ∅)) as ->; [|done].
  apply bool_decide_ext. split.
  - intros H. apply (f_equal length) in H. rewrite sorted_length in H.
    by apply size_empty_inv, leibniz_equiv in H.
  - intros ->. done.
Qed.

(** X6: a constructed proxy keeps the delegate and the extension it was given,
    carries the delegate's class name, and reports the package name and
    version of that extension. *)
Theorem ConverterProxy_init_keeps_references d e ws p :
  ConverterProxy_init uri_match d e = (ws, inr p) →
  delegate p = d ∧ extension p = e
  ∧ ConverterProxy_class_name p = obj_class_name d
  ∧ ConverterProxy_package_name p = package_name e
  ∧ ConverterProxy_package_version p = package_version e.
Proof.
  intros Hinit.
  destruct (ConverterProxy_init_inr_fields d e ws p Hinit)
    as (Hd & He & Hc & _).
  unfold ConverterProxy_package_name, ConverterProxy_package_version,
    ConverterProxy_class_name, delegate, extension.
  by rewrite Hd, He, Hc.
Qed.

(** X7: declaring more patterns, or more tags in the extension, never loses a
    resolved tag. *)
Theorem ConverterProxy_tags_monotone d e ws p d' e' ws' p' :
  ConverterProxy_init uri_match d e = (ws, inr p) →
  ConverterProxy_init uri_match d' e' = (ws', inr p') →
  default [] (attr_tags d) ⊆ default [] (attr_tags d') →
  tag_uri <$> ext_tags e ⊆ tag_uri <$> ext_tags e' →
  tags p ⊆ tags p'.
Proof.
  intros Hinit Hinit' Hps Hext.
  destruct (ConverterProxy_init_inr_fields d e ws p Hinit)
    as (_ & _ & _ & Htags & _).
  destruct (ConverterProxy_init_inr_fields d' e' ws' p' Hinit')
    as (_ & _ & _ & Htags' & _).
  unfold tags. rewrite Htags, Htags'. intros t.
  rewrite !sorted_elem_of, !elem_of_resolved_set.
  intros (pat & td & Hpat & Htd & Hu & Hm).
  assert (t ∈ tag_uri <$> ext_tags e') as Ht.
  { apply Hext, list_elem_of_fmap. eauto. }
  apply list_elem_of_fmap in Ht as (td' & -> & Htd').
  exists pat, td'. auto.
Qed.

(** X8: the resolved tags do not depend on the order or the repetitions in
    which the patterns and the extension's tags are listed. *)
Theorem ConverterProxy_tags_order_independent d e ws p d' e' ws' p' :
  ConverterProxy_init uri_match d e = (ws, inr p) →
  ConverterProxy_init uri_match d' e' = (ws', inr p') →
  (∀ v, v ∈ default [] (attr_tags d) ↔ v ∈ default [] (attr_tags d')) →
  (∀ u, u ∈ tag_uri <$> ext_tags e ↔ u ∈ tag_uri <$> ext_tags e') →
  tags p = tags p'.
Proof.
  intros Hinit Hinit' Hps Hext.
  destruct (ConverterProxy_init_inr_fields d e ws p Hinit)
    as (_ & _ & _ & Htags & _).
  destruct (ConverterProxy_init_inr_fields d' e' ws' p' Hinit')
    as (_ & _ & _ & Htags' & _).
  unfold tags. rewrite Htags, Htags'. f_equal.
  apply set_eq. intros t. rewrite !elem_of_resolved_set.
  split; intros (pat & td & Hpat & Htd & Hu & Hm).
  - assert (t ∈ tag_uri <$> ext_tags e') as Ht.
    { apply Hext, list_elem_of_fmap. eauto. }
    apply list_elem_of_fmap in Ht as (td' & -> & Htd').
    exists pat, td'. split; [by apply Hps | auto].
  - assert (t ∈ tag_uri <$> ext_tags e) as Ht.
    { apply Hext, list_elem_of_fmap. eauto. }
    apply list_elem_of_fmap in Ht as (td' & -> & Htd').
    exists pat, td'. split; [by apply Hps | auto].
Qed.

(** X9: a delegate whose [select_tag] attribute exists but is [None] passes the
    multiple-tags check without a warning, has its declared types checked
    even when no tag resolved, and its proxy falls back to the first of the
    sorted tags, failing with [IndexError] when there is none. *)
Theorem ConverterProxy_select_tag_attribute_None d e :
  isinstance_Converter d = true →
  Forall (λ v, isinstance_str v = true) (default [] (attr_tags d)) →
  Forall (λ v, isinstance_str_or_type v = true) (default [] (attr_types d)) →
  attr_select_tag d = Some None →
  ∃ p, ConverterProxy_init uri_match d e = py_ret p
       ∧ tags p = sorted (resolved_set uri_match (default [] (attr_tags d)) e)
       ∧ types p = default [] (attr_types d)
       ∧ ∀ obj ctx,
           select_tag p obj ctx
           = match tags p with
             | t :: _ => py_ret (Some t)
             | [] => py_raise (IndexError "list index out of range")
             end.
Proof.
  intros Hi Hps Hts Hsel.
  rewrite ConverterProxy_init_cases, init_after_tags_cases, Hi.
  apply forallb_Forall_true in Hps, Hts. rewrite Hps, Hts.
  unfold hasattr_select_tag. rewrite Hsel. simpl.
  rewrite !andb_false_r. simpl.
  eexists. split; [reflexivity|]. split; [done|]. split; [done|].
  intros obj ctx. unfold select_tag, getattr_select_tag. simpl.
  by rewrite Hsel.
Qed.

(** X10: equality of proxies is transitive, and a proxy equals no object that is
    not a proxy. *)
Theorem ConverterProxy_eq_trans p q r :
  ConverterProxy_eq p (ObjConverterProxy q) = true →
  ConverterProxy_eq q (ObjConverterProxy r) = true →
  ConverterProxy_eq p (ObjConverterProxy r) = true
  ∧ ∀ v, ConverterProxy_eq p (ObjOther v) = false.
Proof.
  unfold ConverterProxy_eq, is_delegate, is_extension.
  rewrite !andb_true_iff, !bool_decide_eq_true.
  intros [H1 H2] [H3 H4]. split; [|done]. split; congruence.
Qed.

End ConverterProxy_invariants.

(** ** Construction outcomes on concrete converters *)

Lemma ConverterProxy_types_are_str_or_type_witness :
  ConverterProxy_init uri_match_literal
    (two_tag_converter false (Some (Some first_candidate)))
    (two_tag_extension false)
  = ([], inr (mkConverterProxy
                (two_tag_converter false (Some (Some first_candidate)))
                (two_tag_extension false) "example.FooConverter"
                [tag_a10; tag_a11] [PyType "example.Foo"]))
  ∧ Forall (λ v, isinstance_str_or_type v = true) [PyType "example.Foo"].
Proof.
  assert (ConverterProxy_init uri_match_literal
            (two_tag_converter false (Some (Some first_candidate)))
            (two_tag_extension false)
          = ([], inr (mkConverterProxy
                (two_tag_converter false (Some (Some first_candidate)))
                (two_tag_extension false) "example.FooConverter"
                [tag_a10; tag_a11] [PyType "example.Foo"]))) as Hinit
    by (vm_compute; reflexivity).
  split; [exact Hinit|].
  exact (proj1 (ConverterProxy_types_are_str_or_type uri_match_literal
                  _ _ _ _ Hinit)).
Defined.

Lemma ConverterProxy_init_keeps_references_witness :
  ConverterProxy_init uri_match_literal
    (unmatched_converter [PyType "example.Foo"]) (two_tag_extension false)
  = ([], inr (mkConverterProxy (unmatched_converter [PyType "example.Foo"])
                (two_tag_extension false) "example.FooConverter" [] []))
  ∧ ConverterProxy_package_name
      (mkConverterProxy (unmatched_converter [PyType "example.Foo"])
         (two_tag_extension false) "example.FooConverter" [] [])
    = Some "asdf".
Proof.
  assert (ConverterProxy_init uri_match_literal
            (unmatched_converter [PyType "example.Foo"])
            (two_tag_extension false)
          = ([], inr (mkConverterProxy
                (unmatched_converter [PyType "example.Foo"])
                (two_tag_extension false) "example.FooConverter" [] [])))
    as Hinit by (vm_compute; reflexivity).
  split; [exact Hinit|].
  destruct (ConverterProxy_init_keeps_references uri_match_literal
              _ _ _ _ Hinit) as (_ & _ & _ & Hname & _).
  exact Hname.
Defined.

Lemma ConverterProxy_tags_monotone_witness :
  [tag_a10] ⊆ [tag_a10; tag_a11].
Proof.
  apply (ConverterProxy_tags_monotone uri_match_literal
           (example_converter 3 false [PyStr tag_a10] [PyType "example.Foo"]
              None)
           (two_tag_extension false) []
           (mkConverterProxy
              (example_converter 3 false [PyStr tag_a10]
                 [PyType "example.Foo"] None)
              (two_tag_extension false) "example.FooConverter"
              [tag_a10] [PyType "example.Foo"])
           (two_tag_converter false (Some (Some first_candidate)))
           (two_tag_extension false) []
           (mkConverterProxy
              (two_tag_converter false (Some (Some first_candidate)))
              (two_tag_extension false) "example.FooConverter"
              [tag_a10; tag_a11] [PyType "example.Foo"])).
  - vm_compute. reflexivity.
  - vm_compute. reflexivity.
  - simpl. intros v Hv. apply list_elem_of_singleton in Hv as ->.
    apply elem_of_cons. right. apply elem_of_cons. by left.
  - done.
Defined.

Lemma ConverterProxy_tags_order_independent_witness :
  tags (mkConverterProxy
          (two_tag_converter false (Some (Some first_candidate)))
          (two_tag_extension false) "example.FooConverter"
          [tag_a10; tag_a11] [PyType "example.Foo"])
  = [tag_a10; tag_a11].
Proof.
  apply (ConverterProxy_tags_order_independent uri_match_literal
           (two_tag_converter false (Some (Some first_candidate)))
           (two_tag_extension false) []
           (mkConverterProxy
              (two_tag_converter false (Some (Some first_candidate)))
              (two_tag_extension false) "example.FooConverter"
              [tag_a10; tag_a11] [PyType "example.Foo"])
           (example_converter 5 false
              [PyStr tag_a10; PyStr tag_a11; PyStr tag_a10]
              [PyType "example.Foo"] (Some (Some first_candidate)))
           (mkExtensionProxy 101
              [mkTagDefinition tag_a10 []; mkTagDefinition tag_a11 [];
               mkTagDefinition tag_a10 []]
              (Some "asdf") (Some "3.0.0") false)
           []
           (mkConverterProxy
              (example_converter 5 false
                 [PyStr tag_a10; PyStr tag_a11; PyStr tag_a10]
                 [PyType "example.Foo"] (Some (Some first_candidate)))
              (mkExtensionProxy 101
                 [mkTagDefinition tag_a10 []; mkTagDefinition tag_a11 [];
                  mkTagDefinition tag_a10 []]
                 (Some "asdf") (Some "3.0.0") false)
              "example.FooConverter"
              [tag_a10; tag_a11] [PyType "example.Foo"])).
  - vm_compute. reflexivity.
  - vm_compute. reflexivity.
  - simpl. intros v. rewrite !elem_of_cons, !elem_of_nil. tauto.
  - simpl. intros u. rewrite !elem_of_cons, !elem_of_nil. tauto.
Defined.

Lemma ConverterProxy_select_tag_attribute_None_witness :
  ∃ p, ConverterProxy_init uri_match_literal
         (two_tag_converter false (Some None)) (two_tag_extension false)
       = py_ret p
       ∧ tags p = [tag_a10; tag_a11]
       ∧ select_tag p PyNone tt = py_ret (Some tag_a10).
Proof.
  destruct (ConverterProxy_select_tag_attribute_None uri_match_literal
              (two_tag_converter false (Some None)) (two_tag_extension false))
    as (p & Hinit & Htags & _ & Hsel);
    [reflexivity | repeat constructor | repeat constructor | reflexivity |].
  exists p. split; [exact Hinit|].
  assert (tags p = [tag_a10; tag_a11]) as Hp
    by (rewrite Htags; vm_compute; reflexivity).
  split; [exact Hp|]. rewrite Hsel, Hp. reflexivity.
Defined.

Lemma ConverterProxy_eq_trans_witness :
  ConverterProxy_eq
    (mkConverterProxy (two_tag_converter true None) (two_tag_extension false)
       "example.FooConverter" [tag_a10; tag_a11] [PyType "example.Foo"])
    (ObjConverterProxy
       (mkConverterProxy (two_tag_converter false None)
          (two_tag_extension true) "example.FooConverter" [] []))
  = true.
Proof.
  apply (ConverterProxy_eq_trans
           (mkConverterProxy (two_tag_converter true None)
              (two_tag_extension false) "example.FooConverter"
              [tag_a10; tag_a11] [PyType "example.Foo"])
           (mkConverterProxy (two_tag_converter true None)
              (two_tag_extension false) "example.FooConverter" [] [])
           (mkConverterProxy (two_tag_converter false None)
              (two_tag_extension true) "example.FooConverter" [] []));
    reflexivity.
Defined.
